(** * pslpython.runtime: the Python bridge to the PSL Java runtime

    A shallow embedding of [psl-python/pslpython/runtime.py].  The module
    starts a JVM through JPype (at most once while one is running), hands
    a JSON-encoded configuration to [Runtime.serializedRun] and decodes the
    JSON text that comes back.  JPype, the JVM, the [json] module and the
    file system are collaborators of the module: they appear here as a
    [Platform] interface, every call to them is recorded in a call log, and
    a reference instance of the interface is given further down. *)

From Stdlib Require Import ZArith List String Ascii Bool Lia.
From Stdlib Require Import DecimalString DecimalPos DecimalN DecimalZ.
From stdpp Require Import base option gmap strings list.

Local Open Scope Z_scope.

(** ** Python strings

    A [str] is modelled by [string]; a character is a code point below 256
    (the Latin-1 range of Python's [str]). *)

Module PyStr.

Definition code (c : ascii) : N := N_of_ascii c.

(** [str.isspace] on one character: the code points below 256 that
    Python counts as white space. *)
Definition isspace (c : ascii) : bool :=
  let n := code c in
  (((9 <=? n) && (n <=? 13)) || ((28 <=? n) && (n <=? 32))
   || (n =? 133) || (n =? 160))%N.

(** [str.lower] on one character: A-Z, and the upper-case letters of the
    Latin-1 supplement (U+00C0-U+00DE without the multiplication sign). *)
Definition lower_char (c : ascii) : ascii :=
  let n := code c in
  if (((65 <=? n) && (n <=? 90))
      || ((192 <=? n) && (n <=? 222) && negb (n =? 215)))%N
  then ascii_of_N (n + 32) else c.

Fixpoint lower (s : string) : string :=
  match s with
  | EmptyString => EmptyString
  | String c s' => String (lower_char c) (lower s')
  end.

Fixpoint lstrip (s : string) : string :=
  match s with
  | EmptyString => EmptyString
  | String c s' => if isspace c then lstrip s' else s
  end.

Fixpoint rstrip (s : string) : string :=
  match s with
  | EmptyString => EmptyString
  | String c s' =>
      match rstrip s' with
      | EmptyString => if isspace c then EmptyString else String c EmptyString
      | r => String c r
      end
  end.

(** [s.strip()] *)
Definition strip (s : string) : string := rstrip (lstrip s).

(** [s.replace(old, new)] for a pattern [old] of one character. *)
Fixpoint replace (old : ascii) (new : string) (s : string) : string :=
  match s with
  | EmptyString => EmptyString
  | String c s' =>
      if Ascii.eqb c old then new +:+ replace old new s'
      else String c (replace old new s')
  end.

(** [s.rstrip(chars)] for a set [chars] of one character. *)
Fixpoint rstrip_char (ch : ascii) (s : string) : string :=
  match s with
  | EmptyString => EmptyString
  | String c s' =>
      match rstrip_char ch s' with
      | EmptyString => if Ascii.eqb c ch then EmptyString else String c EmptyString
      | r => String c r
      end
  end.

(** [s.rfind(ch)]: the index of the last occurrence, or -1. *)
Fixpoint rfind (ch : ascii) (s : string) : Z :=
  match s with
  | EmptyString => -1
  | String c s' =>
      let r := rfind ch s' in
      if 0 <=? r then r + 1 else if Ascii.eqb c ch then 0 else -1
  end.

(** [s[:i]] for [0 <= i]. *)
Fixpoint take (n : nat) (s : string) : string :=
  match n, s with
  | O, _ => EmptyString
  | _, EmptyString => EmptyString
  | Datatypes.S n', String c s' => String c (take n' s')
  end.

(** [ch * n] *)
Fixpoint repeat (ch : ascii) (n : nat) : string :=
  match n with
  | O => EmptyString
  | Datatypes.S n' => String ch (repeat ch n')
  end.

Definition startswith_char (s : string) (ch : ascii) : bool :=
  match s with
  | String c _ => Ascii.eqb c ch
  | EmptyString => false
  end.

Fixpoint endswith_char (s : string) (ch : ascii) : bool :=
  match s with
  | EmptyString => false
  | String c EmptyString => Ascii.eqb c ch
  | String _ s' => endswith_char s' ch
  end.

(** [sub in s] *)
Fixpoint contains (sub s : string) : bool :=
  String.prefix sub s ||
  match s with
  | EmptyString => false
  | String _ s' => contains sub s'
  end.

End PyStr.

(** ** [os.path] (the POSIX flavour, [posixpath]) *)

Module os_path.

Definition sep : ascii := "/"%char.

(** [posixpath.dirname]:
    [i = p.rfind(sep) + 1; head = p[:i]];
    [if head and head != sep*len(head): head = head.rstrip(sep)]. *)
Definition dirname (p : string) : string :=
  let i := PyStr.rfind sep p + 1 in
  let head := PyStr.take (Z.to_nat i) p in
  if negb (String.eqb head "")
     && negb (String.eqb head (PyStr.repeat sep (String.length head)))
  then PyStr.rstrip_char sep head
  else head.

(** [posixpath.join(a, b)] with one component [b]. *)
Definition join (a b : string) : string :=
  if PyStr.startswith_char b sep then b
  else if String.eqb a "" || PyStr.endswith_char a sep then a +:+ b
  else a +:+ String sep b.

End os_path.

(** ** Effects: exceptions, process state and the call log *)

(** Exceptions the module can see.  [SystemExit] is raised by [sys.exit],
    [IndexError] by [list.pop] on an empty list; everything raised inside a
    library (JPype, the JVM, [json], [open]) is a [LibraryError] carrying
    the name of the exception class. *)
Inductive exn : Type :=
| SystemExit (status : Z)
| IndexError
| LibraryError (cls : string).

Inductive outcome (A : Type) : Type :=
| Return (a : A)
| Raise (e : exn).
Arguments Return {A} a.
Arguments Raise {A} e.

Inductive stream : Type := sys_stdout | sys_stderr.

(** The Java class [org.linqs.psl.runtime.Runtime], as imported by [_init]. *)
Inductive jclass : Type := Runtime.

(** One entry of the call log: a call that left the module.  [V] is the
    type of Python values handed to [json]. *)
Inductive call (V : Type) : Type :=
| isJVMStarted_call
| getDefaultJVMPath_call
| startJVM_call (jvmpath : string) (args : list string) (classpath : list string)
| shutdownJVM_call
| import_Runtime_call
| dumps_call (obj : V) (indent : option nat)
| serializedRun_call (config : string) (base_path : string)
| loads_call (text : string)
| open_call (path : string)
| print_call (file : stream) (text : string).
Arguments isJVMStarted_call {V}.
Arguments getDefaultJVMPath_call {V}.
Arguments startJVM_call {V} jvmpath args classpath.
Arguments shutdownJVM_call {V}.
Arguments import_Runtime_call {V}.
Arguments dumps_call {V} obj indent.
Arguments serializedRun_call {V} config base_path.
Arguments loads_call {V} text.
Arguments open_call {V} path.
Arguments print_call {V} file text.

(** What the module calls.  [St] is the state of the process outside the
    module (the JVM JPype manages, the files); [V] the Python values. *)
Class Platform (St V : Type) : Type := {
  (** the directory the module is installed in ([THIS_DIR]) *)
  THIS_DIR : string;
  (** [jpype.isJVMStarted()] *)
  jpype_isJVMStarted : St -> bool;
  (** [jpype.getDefaultJVMPath()] *)
  jpype_getDefaultJVMPath : St -> outcome string;
  (** [jpype.startJVM(jvmpath, *args, classpath = classpath)] *)
  jpype_startJVM : string -> list string -> list string -> St -> outcome unit * St;
  (** [jpype.shutdownJVM()] *)
  jpype_shutdownJVM : St -> outcome unit * St;
  (** [from org.linqs.psl.runtime import Runtime]: resolves the class in
      the running JVM; the process state is left as it is. *)
  import_Runtime : St -> outcome jclass;
  (** [Runtime.serializedRun(config, base_path)], with [str] applied to
      the [java.lang.String] it returns *)
  Runtime_serializedRun : string -> string -> St -> outcome string * St;
  (** [json.dumps(obj, indent = indent)] *)
  json_dumps : V -> option nat -> outcome string;
  (** [json.loads(text)] *)
  json_loads : string -> outcome V;
  (** [open(path, 'r')] followed by [read()] on the file *)
  open_read : string -> St -> outcome string
}.

(** A computation: from the process state to an outcome, the new state and
    the calls made, oldest first. *)
Definition Py (St V A : Type) : Type := St -> outcome A * St * list (call V).

Section Monad.
Context {St V : Type}.

Definition ret {A} (a : A) : Py St V A := fun s => (Return a, s, []).

Definition raise {A} (e : exn) : Py St V A := fun s => (Raise e, s, []).

Definition bind {A B} (m : Py St V A) (k : A -> Py St V B) : Py St V B :=
  fun s =>
    match m s with
    | (Return a, s1, l1) =>
        match k a s1 with
        | (r, s2, l2) => (r, s2, (l1 ++ l2)%list)
        end
    | (Raise e, s1, l1) => (Raise e, s1, l1)
    end.

(** a call that reads the state *)
Definition query {A} (c : call V) (f : St -> outcome A) : Py St V A :=
  fun s => (f s, s, [c]).

(** a call that may change the state *)
Definition action {A} (c : call V) (f : St -> outcome A * St) : Py St V A :=
  fun s => match f s with (r, s') => (r, s', [c]) end.

Definition result_of {A} (r : outcome A * St * list (call V)) : outcome A := r.1.1.
Definition state_of {A} (r : outcome A * St * list (call V)) : St := r.1.2.
Definition calls_of {A} (r : outcome A * St * list (call V)) : list (call V) := r.2.
End Monad.

#[global] Instance Py_ret {St V} : MRet (Py St V) := fun A => @ret St V A.
#[global] Instance Py_bind {St V} : MBind (Py St V) := fun A B k m => @bind St V A B m k.

(** ** The module *)

Section Runtime.
Context {St V : Type} `{Platform St V}.

Local Abbreviation M := (Py St V).

(** [JAR_PATH = os.path.join(THIS_DIR, 'psl-runtime.jar')] *)
Definition JAR_PATH : string := os_path.join THIS_DIR "psl-runtime.jar".

(** the library calls, logged *)
Definition isJVMStarted : M bool :=
  query isJVMStarted_call (fun s => Return (jpype_isJVMStarted s)).
Definition getDefaultJVMPath : M string :=
  query getDefaultJVMPath_call jpype_getDefaultJVMPath.
Definition startJVM (jvmpath : string) (args classpath : list string) : M unit :=
  action (startJVM_call jvmpath args classpath) (jpype_startJVM jvmpath args classpath).
Definition shutdownJVM : M unit :=
  action shutdownJVM_call jpype_shutdownJVM.
Definition from_org_linqs_psl_runtime_import_Runtime : M jclass :=
  query import_Runtime_call import_Runtime.
Definition serializedRun (runtime : jclass) (config base_path : string) : M string :=
  match runtime with
  | Runtime => action (serializedRun_call config base_path)
                      (Runtime_serializedRun config base_path)
  end.
Definition dumps (obj : V) (indent : option nat) : M string :=
  query (dumps_call obj indent) (fun _ => json_dumps obj indent).
Definition loads (text : string) : M V :=
  query (loads_call text) (fun _ => json_loads text).
Definition open_and_read (path : string) : M string :=
  query (open_call path) (open_read path).
Definition print (text : string) (file : stream) : M unit :=
  query (print_call file (text +:+ String "010"%char "")) (fun _ => Return tt).
Definition sys_exit {A} (status : Z) : M A := raise (SystemExit status).

(** [def _init(jvm_options = [])]: the JVM is started when JPype says
    none is running; [*jvm_options] are the arguments after the JVM path. *)
Definition _init (jvm_options : option (list string)) : M jclass :=
  let jvm_options := default [] jvm_options in
  started ← isJVMStarted;
  (if negb started
   then jvmpath ← getDefaultJVMPath;
        startJVM jvmpath jvm_options [JAR_PATH]
   else mret tt);;
  from_org_linqs_psl_runtime_import_Runtime.

(** [def run(config, base_path = '.', jvm_options = [])]; an omitted
    argument is [None] here and takes its default.  The default list is
    one shared object in Python; the module only reads it. *)
Definition run (config : V) (base_path : option string)
    (jvm_options : option (list string)) : M V :=
  let base_path := default "." base_path in
  let jvm_options := default [] jvm_options in
  runtime ← _init (Some jvm_options);
  text ← dumps config None;
  raw_output ← serializedRun runtime text base_path;
  loads raw_output.

(** [def _shutdown()] *)
Definition _shutdown : M unit := shutdownJVM.

(** [def main(path)] *)
Definition main (path : string) : M unit :=
  text ← open_and_read path;
  config ← loads text;
  let base_path := os_path.dirname path in
  output ← run config (Some base_path) None;
  text ← dumps output (Some 4%nat);
  print text sys_stdout.

(** the argument normalisation of [_load_args]:
    [arg.lower().strip().replace('-', '')] *)
Definition normalise (arg : string) : string :=
  PyStr.replace "-"%char "" (PyStr.strip (PyStr.lower arg)).

(** [{'h', 'help'} & {arg.lower().strip().replace('-', '') for arg in args}] *)
Definition help_flags (args : list string) : gset string :=
  {[ "h"; "help" ]} ∩ list_to_set (normalise <$> args).

(** [def _load_args(args)]; [args.pop(0)] on a list is the head and the
    tail, and raises [IndexError] on the empty list. *)
Definition pop0 (args : list string) : M (string * list string) :=
  match args with
  | [] => raise IndexError
  | a :: rest => mret (a, rest)
  end.

Definition _load_args (args : list string) : M string :=
  '(executable, args) ← pop0 args;
  (if negb (length args =? 1)%nat || bool_decide (help_flags args ≠ ∅)
   then print ("USAGE: python3 " +:+ executable +:+ " <config path>") sys_stderr;;
        sys_exit 1
   else mret tt);;
  '(path, _) ← pop0 args;
  mret path.

(** [if (__name__ == '__main__'): main(_load_args(sys.argv))] *)
Definition script (argv : list string) : M unit :=
  path ← _load_args argv;
  main path.

End Runtime.

(** ** The [json] module

    Modelled from the spec: the text encoding of the structured-value
    model (null, booleans, numbers, strings, sequences, mappings with
    string keys) that [run] and [main] cross with [json.dumps] and
    [json.loads].  Both are functions of Python's standard library; their
    code is not part of the module.  The text format is the one of
    CPython's [json.encoder], [json.decoder] and [json.scanner] with the
    arguments the module passes (the defaults, and [indent = 4] in
    [main]).  Python's [float] is a parameter: [floatstr] is the text the
    encoder writes for a float ([float.__repr__], or NaN, Infinity,
    -Infinity), [float_of_literal] is [float(text)].  The recursion limit
    and the limit on the digits of an integer are not modelled. *)

Module json.

Definition dquote : ascii := "034"%char.
Definition backslash : ascii := "092"%char.

Section Json.
Variable F : Type.
Variable floatstr : F -> string.
Variable float_of_literal : string -> F.

(** Python values: the JSON model, and [PyObject] for every other object
    (a set, a file handle, ...), named by its type. *)
Unset Elimination Schemes.
Inductive pyobj : Type :=
| PyNone
| PyBool (b : bool)
| PyInt (n : Z)
| PyFloat (f : F)
| PyStr (s : string)
| PyList (l : list pyobj)
| PyDict (items : list (string * pyobj))
| PyObject (type_name : string).
Set Elimination Schemes.

(** *** Encoder *)

Definition hex_digit (n : N) : ascii :=
  if (n <? 10)%N then ascii_of_N (48 + n) else ascii_of_N (87 + n).

(** ['\\u{0:04x}'.format(n)] for [n < 256] *)
Definition u_escape (n : N) : string :=
  String backslash (String "u" (String "0" (String "0"
    (String (hex_digit (n / 16)) (String (hex_digit (n mod 16)) ""))))).

(** [ESCAPE_DCT], and the replacement of [ESCAPE_ASCII] for one character:
    a backslash, a quote and everything outside space..~ is escaped. *)
Definition escape_char (c : ascii) : string :=
  let n := N_of_ascii c in
  if Ascii.eqb c backslash then String backslash (String backslash "")
  else if Ascii.eqb c dquote then String backslash (String dquote "")
  else if ((32 <=? n) && (n <=? 126))%N then String c ""
  else if (n =? 8)%N then String backslash "b"
  else if (n =? 12)%N then String backslash "f"
  else if (n =? 10)%N then String backslash "n"
  else if (n =? 13)%N then String backslash "r"
  else if (n =? 9)%N then String backslash "t"
  else u_escape n.

Fixpoint escape (s : string) : string :=
  match s with
  | EmptyString => EmptyString
  | String c s' => escape_char c +:+ escape s'
  end.

(** [py_encode_basestring_ascii] *)
Definition encode_basestring_ascii (s : string) : string :=
  String dquote (escape s +:+ String dquote "").

(** [int.__repr__] *)
Definition int_repr (n : Z) : string := NilZero.string_of_int (Z.to_int n).

(** ['\n' + ' ' * (indent * level)] *)
Definition newline_indent (indent level : nat) : string :=
  String "010"%char (PyStr.repeat " "%char (indent * level)).

(** the text after the opening bracket and before the closing one *)
Definition open_sep (indent : option nat) (level : nat) : string :=
  match indent with
  | Some i => newline_indent i (Datatypes.S level)
  | None => ""
  end.
Definition close_sep (indent : option nat) (level : nat) : string :=
  match indent with
  | Some i => newline_indent i level
  | None => ""
  end.
(** [separator]: [', '] by default, [','] and a new line with [indent] *)
Definition item_sep (indent : option nat) (level : nat) : string :=
  match indent with
  | Some i => "," +:+ newline_indent i (Datatypes.S level)
  | None => ", "
  end.
Definition key_separator : string := ": ".

(** the items of a list, as [_iterencode_list] yields them: each item,
    the separator between two items, and the closing text; [enc] encodes
    one item *)
Fixpoint list_items (enc : pyobj -> outcome string) (separator closing : string)
    (lst : list pyobj) : outcome string :=
  match lst with
  | [] => Return closing
  | value :: lst' =>
      match enc value with
      | Return chunk =>
          match list_items enc separator closing lst' with
          | Return more =>
              Return (chunk +:+ (match lst' with [] => "" | _ :: _ => separator end)
                      +:+ more)
          | Raise e => Raise e
          end
      | Raise e => Raise e
      end
  end.

(** the items of a dict, as [_iterencode_dict] yields them *)
Fixpoint dict_items (enc : pyobj -> outcome string) (separator closing : string)
    (dct : list (string * pyobj)) : outcome string :=
  match dct with
  | [] => Return closing
  | (key, value) :: dct' =>
      match enc value with
      | Return chunk =>
          match dict_items enc separator closing dct' with
          | Return more =>
              Return (encode_basestring_ascii key +:+ key_separator +:+ chunk
                      +:+ (match dct' with [] => "" | _ :: _ => separator end)
                      +:+ more)
          | Raise e => Raise e
          end
      | Raise e => Raise e
      end
  end.

(** [_iterencode] with its chunks joined; [level] is
    [_current_indent_level].  An object outside the JSON model raises
    [TypeError]. *)
Fixpoint iterencode (indent : option nat) (level : nat) (o : pyobj) : outcome string :=
  match o with
  | PyNone => Return "null"
  | PyBool true => Return "true"
  | PyBool false => Return "false"
  | PyInt n => Return (int_repr n)
  | PyFloat f => Return (floatstr f)
  | PyStr s => Return (encode_basestring_ascii s)
  | PyList [] => Return "[]"
  | PyList lst =>
      match list_items (iterencode indent (Datatypes.S level)) (item_sep indent level)
              (close_sep indent level +:+ "]") lst with
      | Return body => Return ("[" +:+ open_sep indent level +:+ body)
      | Raise e => Raise e
      end
  | PyDict [] => Return "{}"
  | PyDict dct =>
      match dict_items (iterencode indent (Datatypes.S level)) (item_sep indent level)
              (close_sep indent level +:+ "}") dct with
      | Return body => Return ("{" +:+ open_sep indent level +:+ body)
      | Raise e => Raise e
      end
  | PyObject _ => Raise (LibraryError "TypeError")
  end.

(** Modelled from the spec: the serialisation of a structured value,
    [json.dumps(obj, indent = indent)]. *)
Definition dumps (obj : pyobj) (indent : option nat) : outcome string :=
  iterencode indent 0 obj.

(** *** Decoder *)

(** What a scanning function gives: a value and the text after it, or
    [StopIteration] (no value starts here), or a [JSONDecodeError].
    [Unmodelled] stands for the texts this model does not follow: an
    escape for a code point above 255, and nesting beyond the fuel. *)
Inductive scanned (A : Type) : Type :=
| Scanned (a : A) (rest : string)
| StopIteration
| JSONDecodeError (msg : string)
| Unmodelled.
Arguments Scanned {A} a rest.
Arguments StopIteration {A}.
Arguments JSONDecodeError {A} msg.
Arguments Unmodelled {A}.

(** [WHITESPACE_STR]: space, tab, line feed, carriage return *)
Definition is_ws (c : ascii) : bool :=
  let n := N_of_ascii c in ((n =? 32) || (n =? 9) || (n =? 10) || (n =? 13))%N.

(** [WHITESPACE.match(s, end).end()] *)
Fixpoint skip_ws (s : string) : string :=
  match s with
  | EmptyString => EmptyString
  | String c s' => if is_ws c then skip_ws s' else s
  end.

Definition hex_value (c : ascii) : option N :=
  let n := N_of_ascii c in
  if ((48 <=? n) && (n <=? 57))%N then Some (n - 48)%N
  else if ((97 <=? n) && (n <=? 102))%N then Some (n - 87)%N
  else if ((65 <=? n) && (n <=? 70))%N then Some (n - 55)%N
  else None.

(** the four hexadecimal digits of a [u] escape *)
Definition decode_uXXXX (h1 h2 h3 h4 : ascii) : option N :=
  match hex_value h1, hex_value h2, hex_value h3, hex_value h4 with
  | Some a, Some b, Some c, Some d => Some (((a * 16 + b) * 16 + c) * 16 + d)%N
  | _, _, _, _ => None
  end.

(** [BACKSLASH] *)
Definition BACKSLASH (esc : ascii) : option ascii :=
  if Ascii.eqb esc dquote then Some dquote
  else if Ascii.eqb esc backslash then Some backslash
  else if Ascii.eqb esc "/" then Some "/"%char
  else if Ascii.eqb esc "b" then Some "008"%char
  else if Ascii.eqb esc "f" then Some "012"%char
  else if Ascii.eqb esc "n" then Some "010"%char
  else if Ascii.eqb esc "r" then Some "013"%char
  else if Ascii.eqb esc "t" then Some "009"%char
  else None.

Definition push (c : ascii) (r : scanned string) : scanned string :=
  match r with
  | Scanned str rest => Scanned (String c str) rest
  | other => other
  end.

(** [scanstring(s, end)] in strict mode, from the character after the
    opening quote. *)
Fixpoint scanstring (s : string) : scanned string :=
  match s with
  | EmptyString => JSONDecodeError "Unterminated string starting at"
  | String c s1 =>
      if Ascii.eqb c dquote then Scanned "" s1
      else if Ascii.eqb c backslash then
        match s1 with
        | EmptyString => JSONDecodeError "Unterminated string starting at"
        | String esc s2 =>
            if Ascii.eqb esc "u" then
              match s2 with
              | String h1 (String h2 (String h3 (String h4 s3))) =>
                  match decode_uXXXX h1 h2 h3 h4 with
                  | Some uni =>
                      if (uni <? 256)%N then push (ascii_of_N uni) (scanstring s3)
                      else Unmodelled
                  | None => JSONDecodeError "Invalid uXXXX escape"
                  end
              | _ => JSONDecodeError "Invalid uXXXX escape"
              end
            else
              match BACKSLASH esc with
              | Some char => push char (scanstring s2)
              | None => JSONDecodeError "Invalid escape"
              end
        end
      else if (N_of_ascii c <? 32)%N then JSONDecodeError "Invalid control character at"
      else push c (scanstring s1)
  end.

Definition is_digit (c : ascii) : bool :=
  let n := N_of_ascii c in ((48 <=? n) && (n <=? 57))%N.

(** the longest run of digits at the head of [s], and the rest *)
Fixpoint span_digits (s : string) : string * string :=
  match s with
  | EmptyString => (EmptyString, EmptyString)
  | String c s' =>
      if is_digit c
      then match span_digits s' with (d, r) => (String c d, r) end
      else (EmptyString, s)
  end.

(** [NUMBER_RE], in three groups: [integer] is an optional minus sign and
    either 0 or a digit 1-9 followed by digits; [frac], optional, is a dot
    and one digit or more; [exp], optional, is e or E, an optional sign and
    one digit or more. *)
Definition match_integer (s : string) : option (string * string) :=
  let '(sign, s1) :=
    match s with
    | String c t => if Ascii.eqb c "-" then ("-", t) else ("", s)
    | EmptyString => ("", s)
    end in
  match s1 with
  | String c s2 =>
      if Ascii.eqb c "0" then Some (sign +:+ "0", s2)
      else if is_digit c
      then match span_digits s2 with (d, r) => Some (sign +:+ String c d, r) end
      else None
  | EmptyString => None
  end.

Definition match_frac (s : string) : string * string :=
  match s with
  | String c s' =>
      if Ascii.eqb c "."
      then match span_digits s' with
           | (EmptyString, _) => ("", s)
           | (d, r) => (String c d, r)
           end
      else ("", s)
  | EmptyString => ("", s)
  end.

Definition match_exp (s : string) : string * string :=
  match s with
  | String e s' =>
      if Ascii.eqb e "e" || Ascii.eqb e "E"
      then
        let '(sign, s2) :=
          match s' with
          | String c t => if Ascii.eqb c "-" || Ascii.eqb c "+" then (String c "", t) else ("", s')
          | EmptyString => ("", s')
          end in
        match span_digits s2 with
        | (EmptyString, _) => ("", s)
        | (d, r) => (String e (sign +:+ d), r)
        end
      else ("", s)
  | EmptyString => ("", s)
  end.

(** [match_number(string, idx)]: the groups [integer], [frac], [exp] and
    the text after the match *)
Definition match_number (s : string) : option (string * string * string * string) :=
  match match_integer s with
  | Some (integer, s1) =>
      match match_frac s1 with
      | (frac, s2) =>
          match match_exp s2 with
          | (exp, s3) => Some (integer, frac, exp, s3)
          end
      end
  | None => None
  end.

(** [int(integer)] on a match of the first group *)
Definition parse_int (integer : string) : Z :=
  match NilZero.int_of_string integer with
  | Some d => Z.of_int d
  | None => 0
  end.

(** [string[idx:idx + len(p)] == p], and the text after it *)
Fixpoint strip_prefix (p s : string) : option string :=
  match p, s with
  | EmptyString, _ => Some s
  | String a p', String b s' => if Ascii.eqb a b then strip_prefix p' s' else None
  | String _ _, EmptyString => None
  end.

(** [dict(pairs)]: a later pair with a key already there replaces the
    value and keeps the place of the key. *)
Fixpoint dict_setitem (d : list (string * pyobj)) (key : string) (value : pyobj)
  : list (string * pyobj) :=
  match d with
  | [] => [(key, value)]
  | (k, v) :: d' =>
      if String.eqb k key then (k, value) :: d'
      else (k, v) :: dict_setitem d' key value
  end.

Definition dict (pairs : list (string * pyobj)) : list (string * pyobj) :=
  fold_left (fun d kv => dict_setitem d kv.1 kv.2) pairs [].

Definition scanned_map {A B} (f : A -> B) (r : scanned A) : scanned B :=
  match r with
  | Scanned a rest => Scanned (f a) rest
  | StopIteration => StopIteration
  | JSONDecodeError msg => JSONDecodeError msg
  | Unmodelled => Unmodelled
  end.

(** [scan_once(string, idx)] with [parse_object] ([JSONObject]) and
    [parse_array] ([JSONArray]); [array_loop] and [object_loop] are their
    [while True] loops.  The text is the part of the string from [idx]
    on; [fuel] bounds the nesting of calls. *)
Fixpoint scan_once (fuel : nat) (s : string) {struct fuel} : scanned pyobj :=
  match fuel with
  | O => Unmodelled
  | Datatypes.S fuel =>
      match s with
      | EmptyString => StopIteration
      | String nextchar s1 =>
          if Ascii.eqb nextchar dquote then scanned_map PyStr (scanstring s1)
          else if Ascii.eqb nextchar "{" then
            match skip_ws s1 with
            | String c s2 =>
                if Ascii.eqb c "}" then Scanned (PyDict []) s2
                else if Ascii.eqb c dquote
                then scanned_map (fun pairs => PyDict (dict pairs)) (object_loop fuel s2)
                else JSONDecodeError "Expecting property name enclosed in double quotes"
            | EmptyString =>
                JSONDecodeError "Expecting property name enclosed in double quotes"
            end
          else if Ascii.eqb nextchar "[" then
            match skip_ws s1 with
            | String c s2 =>
                if Ascii.eqb c "]" then Scanned (PyList []) s2
                else scanned_map PyList (array_loop fuel (String c s2))
            | EmptyString => scanned_map PyList (array_loop fuel EmptyString)
            end
          else
            match strip_prefix "null" s, strip_prefix "true" s, strip_prefix "false" s with
            | Some r, _, _ => Scanned PyNone r
            | None, Some r, _ => Scanned (PyBool true) r
            | None, None, Some r => Scanned (PyBool false) r
            | None, None, None =>
                match match_number s with
                | Some (integer, frac, exp, r) =>
                    if String.eqb frac "" && String.eqb exp ""
                    then Scanned (PyInt (parse_int integer)) r
                    else Scanned (PyFloat (float_of_literal (integer +:+ frac +:+ exp))) r
                | None =>
                    match strip_prefix "NaN" s, strip_prefix "Infinity" s,
                          strip_prefix "-Infinity" s with
                    | Some r, _, _ => Scanned (PyFloat (float_of_literal "NaN")) r
                    | None, Some r, _ => Scanned (PyFloat (float_of_literal "Infinity")) r
                    | None, None, Some r => Scanned (PyFloat (float_of_literal "-Infinity")) r
                    | None, None, None => StopIteration
                    end
                end
            end
      end
  end
with array_loop (fuel : nat) (s : string) {struct fuel} : scanned (list pyobj) :=
  match fuel with
  | O => Unmodelled
  | Datatypes.S fuel =>
      match scan_once fuel s with
      | Scanned value s1 =>
          match skip_ws s1 with
          | String c s2 =>
              if Ascii.eqb c "]" then Scanned [value] s2
              else if Ascii.eqb c ","
              then scanned_map (cons value) (array_loop fuel (skip_ws s2))
              else JSONDecodeError "Expecting ',' delimiter"
          | EmptyString => JSONDecodeError "Expecting ',' delimiter"
          end
      | StopIteration => JSONDecodeError "Expecting value"
      | JSONDecodeError msg => JSONDecodeError msg
      | Unmodelled => Unmodelled
      end
  end
with object_loop (fuel : nat) (s : string) {struct fuel} : scanned (list (string * pyobj)) :=
  match fuel with
  | O => Unmodelled
  | Datatypes.S fuel =>
      match scanstring s with
      | Scanned key s1 =>
          match skip_ws s1 with
          | String colon s2 =>
              if Ascii.eqb colon ":" then
                match scan_once fuel (skip_ws s2) with
                | Scanned value s3 =>
                    match skip_ws s3 with
                    | String c s4 =>
                        if Ascii.eqb c "}" then Scanned [(key, value)] s4
                        else if Ascii.eqb c "," then
                          match skip_ws s4 with
                          | String q s5 =>
                              if Ascii.eqb q dquote
                              then scanned_map (cons (key, value)) (object_loop fuel s5)
                              else JSONDecodeError
                                     "Expecting property name enclosed in double quotes"
                          | EmptyString =>
                              JSONDecodeError
                                "Expecting property name enclosed in double quotes"
                          end
                        else JSONDecodeError "Expecting ',' delimiter"
                    | EmptyString => JSONDecodeError "Expecting ',' delimiter"
                    end
                | StopIteration => JSONDecodeError "Expecting value"
                | JSONDecodeError msg => JSONDecodeError msg
                | Unmodelled => Unmodelled
                end
              else JSONDecodeError "Expecting ':' delimiter"
          | EmptyString => JSONDecodeError "Expecting ':' delimiter"
          end
      | StopIteration => StopIteration
      | JSONDecodeError msg => JSONDecodeError msg
      | Unmodelled => Unmodelled
      end
  end.

(** [JSONDecoder.decode]: white space, one value, white space, and
    nothing more ([Extra data] otherwise).  [None]: the text is one this
    model does not follow. *)
Definition decode (s : string) : option (outcome pyobj) :=
  match scan_once (Datatypes.S (String.length s)) (skip_ws s) with
  | Scanned obj rest =>
      match skip_ws rest with
      | EmptyString => Some (Return obj)
      | String _ _ => Some (Raise (LibraryError "JSONDecodeError"))
      end
  | StopIteration => Some (Raise (LibraryError "JSONDecodeError"))
  | JSONDecodeError _ => Some (Raise (LibraryError "JSONDecodeError"))
  | Unmodelled => None
  end.

(** Modelled from the spec: the deserialisation of a text,
    [json.loads(s)]. *)
Definition loads (s : string) : option (outcome pyobj) := decode s.

(** *** The values of the JSON model *)

(** the text of a value begins with a character that is no white space
    and no closing bracket *)
Definition head_ok (text : string) : bool :=
  match text with
  | String c _ => negb (is_ws c) && negb (Ascii.eqb c "]")
  | EmptyString => false
  end.

(** the text after a number ends the number: it is empty or begins with a
    character that is no digit, dot or exponent mark *)
Definition stops (rest : string) : bool :=
  match rest with
  | EmptyString => true
  | String c _ =>
      negb (is_digit c || Ascii.eqb c "." || Ascii.eqb c "e" || Ascii.eqb c "E")
  end.

(** the text is one the scanner reads as a float: a number with a
    fraction or an exponent, written in full, or one of the three names *)
Definition float_token (t : string) : bool :=
  String.eqb t "NaN" || String.eqb t "Infinity" || String.eqb t "-Infinity"
  || match match_number t with
     | Some (_, frac, exp, EmptyString) =>
         negb (String.eqb frac "" && String.eqb exp "")
     | _ => false
     end.

(** A value of the model shared with the engine: null, booleans,
    numbers, strings, sequences, and mappings with string keys, each key
    once.  A float is one whose text is a float token that [float] reads
    back as the same float. *)
Unset Elimination Schemes.
Inductive representable : pyobj -> Prop :=
| rep_None : representable PyNone
| rep_Bool (b : bool) : representable (PyBool b)
| rep_Int (n : Z) : representable (PyInt n)
| rep_Float (f : F) :
    float_token (floatstr f) = true ->
    float_of_literal (floatstr f) = f ->
    representable (PyFloat f)
| rep_Str (s : string) : representable (PyStr s)
| rep_List (l : list pyobj) :
    Forall representable l -> representable (PyList l)
| rep_Dict (items : list (string * pyobj)) :
    NoDup (map fst items) ->
    Forall (fun kv => representable kv.2) items ->
    representable (PyDict items).
Set Elimination Schemes.

(** what the round trip says of one value: it is encoded at every level
    of indentation, and the scanner, given fuel for the length of the
    text, reads the value back and stops where the text ends *)
Definition reads_back (v : pyobj) : Prop :=
  forall indent level,
  exists text,
    iterencode indent level v = Return text
    /\ head_ok text = true
    /\ forall fuel rest,
         (String.length text <= fuel)%nat -> stops rest = true ->
         scan_once fuel (text +:+ rest) = Scanned v rest.

End Json.

Arguments Scanned {A} a rest.
Arguments StopIteration {A}.
Arguments JSONDecodeError {A} msg.
Arguments Unmodelled {A}.
Arguments PyNone {F}.
Arguments PyBool {F} b.
Arguments PyInt {F} n.
Arguments PyFloat {F} f.
Arguments PyStr {F} s.
Arguments PyList {F} l.
Arguments PyDict {F} items.
Arguments PyObject {F} type_name.
Arguments dumps {F} floatstr obj indent.
Arguments iterencode {F} floatstr indent level o.
Arguments loads {F} float_of_literal s.
Arguments decode {F} float_of_literal s.
Arguments scan_once {F} float_of_literal fuel s.
Arguments array_loop {F} float_of_literal fuel s.
Arguments object_loop {F} float_of_literal fuel s.
Arguments dict {F} pairs.
Arguments dict_setitem {F} d key value.
Arguments list_items {F} enc separator closing lst.
Arguments dict_items {F} enc separator closing dct.
Arguments representable {F} floatstr float_of_literal _.
Arguments reads_back {F} floatstr float_of_literal v.

End json.

(** ** A reference platform

    JPype as its documentation describes it, over a process record:
    [isJVMStarted] tells whether a JVM is running now; [startJVM] refuses a
    running JVM and refuses to start one again after a stop; [shutdownJVM]
    needs a live JVM.  The engine is a function held by the process (a
    stub in the examples); files are an association list.  A float is
    stood for by its literal. *)

Module Reference.

Record process : Type := {
  JVM_started : bool;              (* a JVM was started at some point *)
  JVM_running : bool;              (* a JVM is running now *)
  JVM_args : list string;          (* the arguments it was started with *)
  JVM_classpath : list string;
  default_jvm_path : option string;
  engine : string -> string -> outcome string;
  files : list (string * string)
}.

Definition pyobj : Type := json.pyobj string.

(** the three states of the runtime handle *)
Inductive handle : Type := Uninitialized | Running | Stopped.

Definition handle_of (p : process) : handle :=
  if JVM_running p then Running
  else if JVM_started p then Stopped
  else Uninitialized.

(** [jpype.startJVM]: an [OSError] when a JVM is running (JVM is already
    started) and when one was stopped before (JVM cannot be restarted) *)
Definition start (jvmpath : string) (args classpath : list string) (p : process)
  : outcome unit * process :=
  if JVM_running p then (Raise (LibraryError "OSError"), p)
  else if JVM_started p then (Raise (LibraryError "OSError"), p)
  else (Return tt,
        {| JVM_started := true; JVM_running := true; JVM_args := args;
           JVM_classpath := classpath; default_jvm_path := default_jvm_path p;
           engine := engine p; files := files p |}).

(** [jpype.shutdownJVM]: stops the running JVM; a [RuntimeError] when
    there is no live JVM to stop *)
Definition shutdown (p : process) : outcome unit * process :=
  if JVM_running p
  then (Return tt,
        {| JVM_started := JVM_started p; JVM_running := false; JVM_args := JVM_args p;
           JVM_classpath := JVM_classpath p; default_jvm_path := default_jvm_path p;
           engine := engine p; files := files p |})
  else (Raise (LibraryError "RuntimeError"), p).

Definition lookup_file (path : string) (p : process) : outcome string :=
  match List.find (fun kv => String.eqb kv.1 path) (files p) with
  | Some kv => Return kv.2
  | None => Raise (LibraryError "FileNotFoundError")
  end.

(** texts the [json] model does not follow are reported as an error *)
Definition loads (text : string) : outcome pyobj :=
  match json.loads (fun lit => lit) text with
  | Some r => r
  | None => Raise (LibraryError "Unmodelled")
  end.

#[global] Instance platform : Platform process pyobj := {|
  THIS_DIR := "/opt/psl/pslpython";
  jpype_isJVMStarted := JVM_running;
  jpype_getDefaultJVMPath := fun p =>
    match default_jvm_path p with
    | Some path => Return path
    | None => Raise (LibraryError "JVMNotFoundException")
    end;
  jpype_startJVM := start;
  jpype_shutdownJVM := shutdown;
  import_Runtime := fun p =>
    if JVM_running p then Return Runtime
    else Raise (LibraryError "ModuleNotFoundError");
  Runtime_serializedRun := fun config base_path p =>
    if JVM_running p then (engine p config base_path, p)
    else (Raise (LibraryError "JVMNotRunning"), p);
  json_dumps := json.dumps (fun lit => lit);
  json_loads := loads;
  open_read := lookup_file
|}.

(** the stub engine: a fixed reply *)
Definition status_ok : string :=
  "{" +:+ String json.dquote "status" +:+ String json.dquote ": "
  +:+ String json.dquote "ok" +:+ String json.dquote "}".

(** the same value as [json.dumps] with [indent = 4] writes it *)
Definition status_ok_indented : string :=
  "{" +:+ String "010"%char "    " +:+ String json.dquote "status"
  +:+ String json.dquote ": " +:+ String json.dquote "ok"
  +:+ String json.dquote (String "010"%char "}").

Definition stub_engine (config base_path : string) : outcome string :=
  Return status_ok.

Definition libjvm : string := "/usr/lib/jvm/default/lib/server/libjvm.so".
Definition jar : string := "/opt/psl/pslpython/psl-runtime.jar".

(** a fresh process: no JVM yet, two configuration files *)
Definition fresh : process := {|
  JVM_started := false; JVM_running := false; JVM_args := []; JVM_classpath := [];
  default_jvm_path := Some libjvm;
  engine := stub_engine;
  files := [("/data/job.json", "{}"); ("job.json", "[1, 2]")]
|}.

(** a configuration of the JSON model *)
Definition example_config : pyobj :=
  json.PyDict
    [("name", json.PyStr "psl job");
     ("rules", json.PyList [json.PyInt 1; json.PyInt (-20); json.PyFloat "1.5e-3";
                            json.PyBool true; json.PyNone]);
     ("options", json.PyDict [])].

(** the process after one [_init] on a fresh one, and after a
    [_shutdown] of that *)
Definition running : process := state_of (_init None fresh).
Definition stopped : process := state_of (_shutdown running).

End Reference.

(** ** Observations on a call log *)

Local Open Scope list_scope.

Definition is_startJVM {V} (c : call V) : bool :=
  match c with startJVM_call _ _ _ => true | _ => false end.

Definition is_serializedRun {V} (c : call V) : bool :=
  match c with serializedRun_call _ _ => true | _ => false end.

(** the number of JVM starts requested in a log *)
Definition starts {V} (l : list (call V)) : nat := length (filter is_startJVM l).

(** the engine invocations of a log, in order *)
Definition invocations {V} (l : list (call V)) : list (call V) := filter is_serializedRun l.

(** an argument is a help flag when its normal form is [h] or [help] *)
Definition is_help (arg : string) : Prop := normalise arg = "h" \/ normalise arg = "help".

(** the usage line, as [print] writes it *)
Definition usage (executable : string) : string :=
  ("USAGE: python3 " +:+ executable +:+ " <config path>") +:+ String "010"%char "".

(** ** More observations *)

Definition is_shutdownJVM {V} (c : call V) : bool :=
  match c with shutdownJVM_call => true | _ => false end.

Definition is_print {V} (c : call V) : bool :=
  match c with print_call _ _ => true | _ => false end.

(** the number of JVM stops requested in a log *)
Definition shutdowns {V} (l : list (call V)) : nat := length (filter is_shutdownJVM l).

(** what a log writes to the streams, in order *)
Definition prints {V} (l : list (call V)) : list (call V) := filter is_print l.

(** a call that is neither a print nor a shutdown *)
Definition silent {V} (c : call V) : Prop :=
  is_print c = false /\ is_shutdownJVM c = false.

(** [n] dashes *)
Definition dashes (n : nat) : string := PyStr.repeat "-" n.

(** a value made of the JSON model only: no [PyObject] in it *)
Fixpoint serialisable {F : Type} (v : json.pyobj F) : bool :=
  match v with
  | json.PyList l => forallb serialisable l
  | json.PyDict items =>
      (fix all (items : list (string * json.pyobj F)) : bool :=
         match items with
         | [] => true
         | (_, value) :: items' => serialisable value && all items'
         end) items
  | json.PyObject _ => false
  | _ => true
  end.

(** printable ASCII: the code points 32 to 126 *)
Definition printable_char (c : ascii) : bool :=
  let n := N_of_ascii c in ((32 <=? n) && (n <=? 126))%N.

Fixpoint printable (s : string) : bool :=
  match s with
  | EmptyString => true
  | String c s' => printable_char c && printable s'
  end.

(** the text of every float of a value is printable *)
Fixpoint floats_printable {F : Type} (floatstr : F -> string) (v : json.pyobj F) : bool :=
  match v with
  | json.PyFloat f => printable (floatstr f)
  | json.PyList l => forallb (floats_printable floatstr) l
  | json.PyDict items =>
      (fix all (items : list (string * json.pyobj F)) : bool :=
         match items with
         | [] => true
         | (_, value) :: items' => floats_printable floatstr value && all items'
         end) items
  | _ => true
  end.

(** the encoder returns a text on a serialisable value and raises
    [TypeError] on any other *)
Definition encodes_iff {F : Type} (floatstr : F -> string) (v : json.pyobj F) : Prop :=
  forall indent level,
    match json.iterencode floatstr indent level v with
    | Return _ => serialisable v = true
    | Raise e => serialisable v = false /\ e = LibraryError "TypeError"
    end.

(** without indentation the text of a value is printable ASCII *)
Definition plain_text {F : Type} (floatstr : F -> string) (v : json.pyobj F) : Prop :=
  floats_printable floatstr v = true ->
  forall level text,
    json.iterencode floatstr None level v = Return text -> printable text = true.

(** a configuration with an object outside the JSON model *)
Definition config_with_set : Reference.pyobj :=
  json.PyDict [("rules", json.PyList [json.PyInt 1; json.PyObject "set"])].

(** * Properties *)

Ltac py_unfold :=
  unfold mbind, mret, Py_bind, Py_ret, bind, ret, raise, query, action,
    result_of, state_of, calls_of in *.

(** case analysis on membership in a log that is written out *)
Ltac log_cases H :=
  unfold calls_of in H; cbn [snd] in H;
  repeat (apply elem_of_cons in H as [H|H];
          [first [discriminate H | injection H as ? ? ?; subst; reflexivity]|]);
  inversion H.

Section RuntimeFacts.
Context {St V : Type} `{Platform St V}.

(** [_init], evaluated: one question to JPype, a start when no JVM is
    running, and the import. *)
Lemma _init_eq (o : option (list string)) (s : St) :
  _init o s =
  if jpype_isJVMStarted s
  then (import_Runtime s, s, [isJVMStarted_call; import_Runtime_call])
  else match jpype_getDefaultJVMPath s with
       | Raise e => (Raise e, s, [isJVMStarted_call; getDefaultJVMPath_call])
       | Return jvmpath =>
           match jpype_startJVM jvmpath (default [] o) [JAR_PATH] s with
           | (Raise e, s1) =>
               (Raise e, s1,
                [isJVMStarted_call; getDefaultJVMPath_call;
                 startJVM_call jvmpath (default [] o) [JAR_PATH]])
           | (Return _, s1) =>
               (import_Runtime s1, s1,
                [isJVMStarted_call; getDefaultJVMPath_call;
                 startJVM_call jvmpath (default [] o) [JAR_PATH];
                 import_Runtime_call])
           end
       end.
Proof.
  unfold _init. generalize JAR_PATH as jar. intros jar.
  unfold isJVMStarted, getDefaultJVMPath, startJVM,
    from_org_linqs_psl_runtime_import_Runtime.
  py_unfold. cbn.
  destruct (jpype_isJVMStarted s); cbn; [reflexivity|].
  destruct (jpype_getDefaultJVMPath s) as [jvmpath|e]; cbn; [|reflexivity].
  destruct (jpype_startJVM jvmpath (default [] o) [jar] s) as [[u|e] s1]; reflexivity.
Qed.

(** [run], evaluated on the outcome of [_init]. *)
Lemma run_eq (config : V) (b : option string) (o : option (list string)) (s : St) :
  run config b o s =
  match _init (Some (default [] o)) s with
  | (Raise e, s0, l0) => (Raise e, s0, l0)
  | (Return _, s0, l0) =>
      match json_dumps config None with
      | Raise e => (Raise e, s0, l0 ++ [dumps_call config None])
      | Return text =>
          match Runtime_serializedRun text (default "." b) s0 with
          | (Raise e, s1) =>
              (Raise e, s1,
               l0 ++ [dumps_call config None; serializedRun_call text (default "." b)])
          | (Return raw_output, s1) =>
              (json_loads raw_output, s1,
               l0 ++ [dumps_call config None; serializedRun_call text (default "." b);
                      loads_call raw_output])
          end
      end
  end.
Proof.
  unfold run. generalize (_init (Some (default [] o))) as init. intros init.
  unfold dumps, serializedRun, loads. py_unfold. cbn.
  destruct (init s) as [[[rt|e] s0] l0]; cbn; [|reflexivity].
  destruct (json_dumps config None) as [text|e]; cbn; [|reflexivity].
  destruct rt. cbn.
  destruct (Runtime_serializedRun text (default "." b) s0) as [[raw|e] s1]; reflexivity.
Qed.

(** [_init] never invokes the engine. *)
Lemma _init_invocations (o : option (list string)) (s : St) :
  invocations (calls_of (_init o s)) = [].
Proof.
  rewrite _init_eq.
  destruct (jpype_isJVMStarted s); [reflexivity|].
  destruct (jpype_getDefaultJVMPath s) as [jvmpath|e]; [|reflexivity].
  destruct (jpype_startJVM jvmpath (default [] o) [JAR_PATH] s) as [[u|e] s1]; reflexivity.
Qed.

(** The starts requested by [_init]: one when no JVM is running and a JVM
    path is found, none otherwise. *)
Lemma _init_starts (o : option (list string)) (s : St) :
  starts (calls_of (_init o s)) =
  if jpype_isJVMStarted s then 0%nat
  else match jpype_getDefaultJVMPath s with Return _ => 1%nat | Raise _ => 0%nat end.
Proof.
  rewrite _init_eq.
  destruct (jpype_isJVMStarted s); [reflexivity|].
  destruct (jpype_getDefaultJVMPath s) as [jvmpath|e]; [|reflexivity].
  destruct (jpype_startJVM jvmpath (default [] o) [JAR_PATH] s) as [[u|e] s1]; reflexivity.
Qed.

Lemma starts_app (l1 l2 : list (call V)) : starts (l1 ++ l2) = (starts l1 + starts l2)%nat.
Proof. unfold starts. rewrite filter_app, length_app. reflexivity. Qed.

Lemma invocations_app (l1 l2 : list (call V)) :
  invocations (l1 ++ l2) = invocations l1 ++ invocations l2.
Proof. unfold invocations. apply filter_app. Qed.

(** The calls of [run] begin with the calls of [_init]. *)
Lemma run_calls (config : V) (b : option string) (o : option (list string)) (s : St) :
  exists tail,
    calls_of (run config b o s) = calls_of (_init (Some (default [] o)) s) ++ tail
    /\ starts tail = 0%nat
    /\ (forall c, c ∈ invocations tail ->
          exists text, c = serializedRun_call text (default "." b)).
Proof.
  rewrite run_eq.
  destruct (_init (Some (default [] o)) s) as [[[rt|e] s0] l0]; cbn.
  2:{ exists []. rewrite app_nil_r. split; [reflexivity|]. split; [reflexivity|].
      intros c Hc. inversion Hc. }
  destruct (json_dumps config None) as [text|e]; cbn.
  2:{ eexists. split; [reflexivity|]. split; [reflexivity|].
      intros c Hc. inversion Hc. }
  destruct (Runtime_serializedRun text (default "." b) s0) as [[raw|e] s1]; cbn;
    (eexists; split; [reflexivity|]; split; [reflexivity|]);
    intros c Hc; cbn in Hc; apply list_elem_of_singleton in Hc; subst; eauto.
Qed.

(** C1.  The steps of [run] in order: the calls of [_init] come first; then
    [json.dumps] of the configuration; then one call of
    [Runtime.serializedRun] with that text and the base path; then
    [json.loads] of what the engine returned, whose value is the result.
    A step that raises ends the run there.  When [json.dumps] raises,
    the state is the one [_init] left (a JVM that was not running has been
    asked to start) and the engine is not invoked. *)
Theorem run_steps_in_order (config : V) (base_path : string)
    (options : list string) (s : St) :
  let started := _init (Some options) s in
  let r := run config (Some base_path) (Some options) s in
  match result_of started with
  | Raise e => r = (Raise e, state_of started, calls_of started)
  | Return _ =>
      match json_dumps config None with
      | Raise e =>
          r = (Raise e, state_of started, calls_of started ++ [dumps_call config None])
          /\ invocations (calls_of r) = []
          /\ (jpype_isJVMStarted s = false -> starts (calls_of r) = 1%nat)
      | Return text =>
          let engine := Runtime_serializedRun text base_path (state_of started) in
          invocations (calls_of r) = [serializedRun_call text base_path]
          /\ match engine.1 with
             | Raise e =>
                 r = (Raise e, engine.2,
                      calls_of started
                      ++ [dumps_call config None; serializedRun_call text base_path])
             | Return raw_output =>
                 r = (json_loads raw_output, engine.2,
                      calls_of started
                      ++ [dumps_call config None; serializedRun_call text base_path;
                          loads_call raw_output])
             end
      end
  end.
Proof.
  intros started r. subst r.
  pose proof (_init_invocations (Some options) s) as Hinv.
  pose proof (_init_starts (Some options) s) as Hst.
  fold started in Hinv, Hst.
  rewrite run_eq.
  change (default [] (Some options)) with options.
  change (default "." (Some base_path)) with base_path.
  fold started.
  destruct started as [[[rt|e] s0] l0] eqn:E; cbn [result_of state_of calls_of fst snd] in *;
    [|reflexivity].
  destruct (json_dumps config None) as [text|e]; cbv zeta.
  - destruct (Runtime_serializedRun text base_path s0) as [[raw|e] s1];
      cbn [result_of state_of calls_of fst snd];
      (split; [|reflexivity]); rewrite invocations_app, Hinv; reflexivity.
  - cbn [result_of state_of calls_of fst snd].
    split; [reflexivity|]. split.
    + rewrite invocations_app, Hinv. reflexivity.
    + intros Hoff. rewrite starts_app, Hst, Hoff.
      subst started. rewrite _init_eq, Hoff in E.
      destruct (jpype_getDefaultJVMPath s) as [jvmpath|e']; [reflexivity|].
      discriminate E.
Qed.

(** C3.  [_init] is idempotent.  On a platform where a JVM that
    [startJVM] has started is reported by [isJVMStarted], a second
    [_init] after one that returned asks JPype whether a JVM runs and
    imports [Runtime] again, nothing more: it does not raise, returns the
    same handle, leaves the process as the first call left it, whatever
    its options are, and both calls together request one start at most. *)
Theorem _init_idempotent (o1 o2 : option (list string)) (s s1 : St)
    (runtime : jclass) (l1 : list (call V)) :
  (forall jvmpath args classpath p p',
      jpype_startJVM jvmpath args classpath p = (Return tt, p') ->
      jpype_isJVMStarted p' = true) ->
  _init o1 s = (Return runtime, s1, l1) ->
  _init o2 s1 = (Return runtime, s1, [isJVMStarted_call; import_Runtime_call])
  /\ (starts (l1 ++ calls_of (_init o2 s1)) <= 1)%nat.
Proof.
  intros Hlaw Hfirst.
  assert (jpype_isJVMStarted s1 = true /\ import_Runtime s1 = Return runtime
          /\ (starts l1 <= 1)%nat) as (Hon & Himp & Hl1).
  { pose proof (_init_starts o1 s) as Hst. rewrite Hfirst in Hst.
    unfold calls_of in Hst. cbn [snd] in Hst.
    rewrite _init_eq in Hfirst.
    destruct (jpype_isJVMStarted s) eqn:Hs.
    - injection Hfirst as Hi Hs1 Hl. subst s1. rewrite Hst. auto.
    - destruct (jpype_getDefaultJVMPath s) as [jvmpath|e]; [|discriminate Hfirst].
      destruct (jpype_startJVM jvmpath (default [] o1) [JAR_PATH] s)
        as [[[]|e] s'] eqn:Hstart; [|discriminate Hfirst].
      injection Hfirst as Hi Hs1 Hl. subst s'.
      rewrite Hst. eauto. }
  assert (_init o2 s1 = (Return runtime, s1, [isJVMStarted_call; import_Runtime_call]))
    as Hsecond.
  { rewrite _init_eq, Hon, Himp. reflexivity. }
  split; [exact Hsecond|].
  rewrite Hsecond, starts_app. unfold calls_of. cbn [snd].
  change (starts (V:=V) [isJVMStarted_call; import_Runtime_call]) with 0%nat. lia.
Qed.

(** C4, as the code has it.  A start is requested by [_init], and by [run]
    through it, exactly when [isJVMStarted] answers no and a JVM path is
    found: never while a JVM is running, and every time none is running,
    a stopped one included; the module keeps no record of a stop. *)
Theorem start_requested_when_not_running (config : V) (b : option string)
    (o : option (list string)) (s : St) :
  let requested :=
    if jpype_isJVMStarted s then 0%nat
    else match jpype_getDefaultJVMPath s with Return _ => 1%nat | Raise _ => 0%nat end in
  starts (calls_of (_init o s)) = requested
  /\ starts (calls_of (run config b o s)) = requested.
Proof.
  cbv zeta. split; [apply _init_starts|].
  destruct (run_calls config b o s) as (tail & Hcalls & Htail & _).
  rewrite Hcalls, starts_app, Htail, _init_starts. lia.
Qed.



(** The help test of [_load_args]: the intersection is not empty exactly
    when some argument is a help flag. *)
Lemma help_flags_spec (args : list string) :
  help_flags args ≠ ∅ <-> exists a, a ∈ args /\ is_help a.
Proof.
  unfold help_flags, is_help. split.
  - intros Hne. apply set_choose_L in Hne as [x Hx].
    apply elem_of_intersection in Hx as [Hx1 Hx2].
    apply elem_of_list_to_set, list_elem_of_fmap in Hx2 as (a & -> & Ha).
    exists a. split; [exact Ha|]. set_solver.
  - intros (a & Ha & Hh) Hempty.
    assert (normalise a ∈ ({[ "h"; "help" ]} ∩ list_to_set (normalise <$> args) : gset string))
      as Hin.
    { apply elem_of_intersection. split.
      - destruct Hh as [-> | ->]; set_solver.
      - apply elem_of_list_to_set, list_elem_of_fmap. eauto. }
    rewrite Hempty in Hin. set_solver.
Qed.

(** [_load_args], evaluated. *)
Lemma _load_args_eq (executable : string) (args : list string) (s : St) :
  _load_args (executable :: args) s =
  if negb (length args =? 1)%nat || bool_decide (help_flags args ≠ ∅)
  then (Raise (SystemExit 1), s, [print_call sys_stderr (usage executable)])
  else match args with
       | path :: _ => (Return path, s, @nil (call V))
       | [] => (Raise IndexError, s, @nil (call V))
       end.
Proof.
  unfold _load_args, pop0, print, sys_exit, usage. py_unfold. cbn.
  destruct (negb (length args =? 1)%nat || bool_decide (help_flags args ≠ ∅));
    cbn; [reflexivity|].
  destruct args; reflexivity.
Qed.

(** A refused command line: usage on the error stream, exit status 1,
    and nothing else. *)
Lemma script_refuses (executable : string) (args : list string) (s : St) :
  length args ≠ 1%nat \/ (exists a, a ∈ args /\ is_help a) ->
  script (executable :: args) s
  = (Raise (SystemExit 1), s, [print_call sys_stderr (usage executable)]).
Proof.
  intros Hbad. unfold script. py_unfold. rewrite _load_args_eq.
  assert (negb (length args =? 1)%nat || bool_decide (help_flags args ≠ ∅) = true) as ->;
    [|reflexivity].
  destruct Hbad as [Hlen|Hhelp].
  - apply Nat.eqb_neq in Hlen. rewrite Hlen. reflexivity.
  - apply orb_true_iff. right. apply bool_decide_eq_true, help_flags_spec, Hhelp.
Qed.

(** An accepted command line goes on to [main] with its argument. *)
Lemma script_accepts (executable path : string) (s : St) :
  ~ is_help path ->
  script [executable; path] s = main path s.
Proof.
  intros Hno. unfold script. py_unfold. rewrite _load_args_eq.
  assert (bool_decide (help_flags [path] ≠ ∅) = false) as ->.
  { apply bool_decide_eq_false. intros Hne. apply help_flags_spec in Hne as (a & Ha & Hh).
    apply list_elem_of_singleton in Ha. subst a. exact (Hno Hh). }
  cbn. destruct (main path s) as [[r s'] l]. reflexivity.
Qed.

(** [main], evaluated on the outcome of [run]. *)
Lemma main_eq (path : string) (s : St) :
  main path s =
  match open_read path s with
  | Raise e => (Raise e, s, [open_call path])
  | Return text =>
      match json_loads text with
      | Raise e => (Raise e, s, [open_call path; loads_call text])
      | Return config =>
          match run config (Some (os_path.dirname path)) None s with
          | (Raise e, s', l) => (Raise e, s', [open_call path; loads_call text] ++ l)
          | (Return output, s', l) =>
              match json_dumps output (Some 4%nat) with
              | Raise e =>
                  (Raise e, s',
                   [open_call path; loads_call text] ++ l
                   ++ [dumps_call output (Some 4%nat)])
              | Return shown =>
                  (Return tt, s',
                   [open_call path; loads_call text] ++ l
                   ++ [dumps_call output (Some 4%nat);
                       print_call sys_stdout (shown +:+ String "010"%char "")])
              end
          end
      end
  end.
Proof.
  unfold main. generalize (os_path.dirname path) as base_path. intros base_path.
  unfold open_and_read, loads, dumps, print. py_unfold. cbn -[run].
  destruct (open_read path s) as [text|e]; cbn -[run]; [|reflexivity].
  destruct (json_loads text) as [config|e]; cbn -[run]; [|reflexivity].
  destruct (run config (Some base_path) None s) as [[[output|e] s'] l]; cbn; [|reflexivity].
  destruct (json_dumps output (Some 4%nat)) as [shown|e]; reflexivity.
Qed.

(** Every engine invocation of [main] carries the directory part of the
    path as its base path. *)
Lemma main_invocations (path : string) (s : St) (text base_path : string) :
  serializedRun_call text base_path ∈ calls_of (main path s) ->
  base_path = os_path.dirname path.
Proof.
  intros Hin.
  assert (forall config,
             serializedRun_call text base_path
               ∈ calls_of (run config (Some (os_path.dirname path)) None s) ->
             base_path = os_path.dirname path) as Hrun.
  { intros config Hc.
    destruct (run_calls config (Some (os_path.dirname path)) None s)
      as (tail & Hcalls & _ & Hinv).
    rewrite Hcalls in Hc. apply elem_of_app in Hc as [Hc|Hc].
    - pose proof (_init_invocations (Some (default [] None)) s) as Hnone.
      assert (serializedRun_call text base_path
                ∈ invocations (calls_of (_init (Some (default [] None)) s))) as Hbad.
      { unfold invocations. apply list_elem_of_filter. split; [reflexivity|exact Hc]. }
      rewrite Hnone in Hbad. inversion Hbad.
    - destruct (Hinv (serializedRun_call text base_path)) as [text' Heq].
      { unfold invocations. apply list_elem_of_filter. split; [reflexivity|exact Hc]. }
      injection Heq as _ ->. reflexivity. }
  rewrite main_eq in Hin.
  destruct (open_read path s) as [content|e]; [|log_cases Hin].
  destruct (json_loads content) as [config|e]; [|log_cases Hin].
  specialize (Hrun config).
  destruct (run config (Some (os_path.dirname path)) None s) as [[[output|e] s'] l];
    unfold calls_of in Hin, Hrun; cbn [snd] in Hin, Hrun.
  - destruct (json_dumps output (Some 4%nat)) as [shown|e]; cbn [snd] in Hin;
      apply elem_of_app in Hin as [Hin|Hin]; try log_cases Hin;
      apply elem_of_app in Hin as [Hin|Hin]; auto; log_cases Hin.
  - apply elem_of_app in Hin as [Hin|Hin]; [log_cases Hin|auto].
Qed.

Lemma append_assoc (a b c : string) : (a +:+ b) +:+ c = a +:+ (b +:+ c).
Proof.
  induction a as [|x a IH]; [reflexivity|].
  change (String x ((a +:+ b) +:+ c) = String x (a +:+ (b +:+ c))).
  rewrite IH. reflexivity.
Qed.

Lemma prefix_app (a b : string) : String.prefix a (a +:+ b) = true.
Proof.
  induction a as [|c a IH]; [destruct b; reflexivity|].
  simpl. destruct (ascii_dec c c) as [_|Hne]; [exact IH|contradiction].
Qed.

Lemma contains_app (sub a b : string) : PyStr.contains sub (a +:+ sub +:+ b) = true.
Proof.
  induction a as [|c a IH].
  - change ("" +:+ sub +:+ b) with (sub +:+ b). destruct sub as [|d sub].
    + destruct b; reflexivity.
    + change (String d sub +:+ b) with (String d (sub +:+ b)).
      cbn [PyStr.contains].
      change (String d (sub +:+ b)) with (String d sub +:+ b).
      rewrite (prefix_app (String d sub) b). reflexivity.
  - change (String c a +:+ sub +:+ b) with (String c (a +:+ sub +:+ b)).
    cbn [PyStr.contains]. rewrite IH. apply orb_true_r.
Qed.

(** C6.  A command line with no argument, with more than one, or with an
    argument that is a help flag: the usage line, which contains the name
    of the executable, goes to the error stream, the exit status is 1,
    and nothing else is called; in particular no JVM start is requested
    and the process is left as it was. *)
Theorem usage_on_refused_command_line (executable : string) (args : list string) (s : St) :
  length args ≠ 1%nat \/ (exists a, a ∈ args /\ is_help a) ->
  let r := script (executable :: args) s in
  calls_of r = [print_call sys_stderr (usage executable)]
  /\ PyStr.contains executable (usage executable) = true
  /\ (exists status, result_of r = Raise (SystemExit status) /\ status ≠ 0)
  /\ starts (calls_of r) = 0%nat
  /\ state_of r = s.
Proof.
  intros Hbad r. subst r. rewrite (script_refuses executable args s Hbad).
  split; [reflexivity|]. split.
  - unfold usage. rewrite !append_assoc.
    apply (contains_app executable "USAGE: python3 ").
  - split; [exists 1; split; [reflexivity|lia]|]. split; reflexivity.
Qed.

(** C9.  The help test reads the one positional argument itself: when
    its normal form (lower case, outer white space stripped, every dash
    removed) is [h] or [help], the command line is refused with the usage
    line and exit status 1, and [main] is not reached. *)
Theorem help_named_config_is_refused (executable arg : string) (s : St) :
  is_help arg ->
  script [executable; arg] s
  = (Raise (SystemExit 1), s, [print_call sys_stderr (usage executable)]).
Proof.
  intros Hh. apply script_refuses. right. exists arg.
  split; [apply list_elem_of_singleton; reflexivity|exact Hh].
Qed.

(** C7.  An accepted command line, one argument that is no help flag:
    the file is read and decoded, [run] gets the configuration and the
    directory part of the path, and the result is encoded with
    [indent = 4] and printed on the output stream. *)
Theorem cli_runs_the_job (executable path text shown : string) (config output : V)
    (s s' : St) (l : list (call V)) :
  ~ is_help path ->
  open_read path s = Return text ->
  json_loads text = Return config ->
  run config (Some (os_path.dirname path)) None s = (Return output, s', l) ->
  json_dumps output (Some 4%nat) = Return shown ->
  script [executable; path] s
  = (Return tt, s',
     [open_call path; loads_call text] ++ l
     ++ [dumps_call output (Some 4%nat);
         print_call sys_stdout (shown +:+ String "010"%char "")]).
Proof.
  intros Hno Hopen Hload Hrun Hdump.
  rewrite (script_accepts executable path s Hno), main_eq, Hopen, Hload, Hrun, Hdump.
  reflexivity.
Qed.

Lemma rfind_absent (ch : ascii) (p : string) :
  PyStr.contains (String ch "") p = false -> PyStr.rfind ch p = -1.
Proof.
  induction p as [|c p IH]; [reflexivity|].
  cbn [PyStr.contains String.prefix PyStr.rfind]. intros Hc.
  apply orb_false_iff in Hc as [Hpre Hrest]. rewrite (IH Hrest). cbn.
  destruct (ascii_dec ch c) as [->|Hne].
  - destruct p; discriminate Hpre.
  - apply Ascii.eqb_neq in Hne. rewrite Ascii.eqb_sym, Hne. reflexivity.
Qed.

(** C10.  For a file name without a separator the directory part is the
    empty string, and that is the base path of every engine invocation of
    the command line: the default ["."] of [run] is not used. *)
Theorem bare_filename_base_path (executable path : string) (s : St) :
  PyStr.contains "/" path = false ->
  os_path.dirname path = ""
  /\ (forall text base_path,
        serializedRun_call text base_path ∈ calls_of (script [executable; path] s) ->
        base_path = "" /\ base_path ≠ ".").
Proof.
  intros Hbare.
  assert (os_path.dirname path = "") as Hdir.
  { unfold os_path.dirname. rewrite (rfind_absent os_path.sep path Hbare). reflexivity. }
  split; [exact Hdir|].
  intros text base_path Hin.
  assert (base_path = "") as ->; [|split; [reflexivity|discriminate]].
  rewrite <- Hdir.
  unfold script in Hin. py_unfold. rewrite _load_args_eq in Hin.
  destruct (negb (length [path] =? 1)%nat || bool_decide (help_flags [path] ≠ ∅)).
  - log_cases Hin.
  - apply (main_invocations path s text). cbn in Hin.
    destruct (main path s) as [[r s'] l]. exact Hin.
Qed.

End RuntimeFacts.

(** ** The JSON text encoding *)

Section JsonText.
Import json.

Lemma app_cons (c : ascii) (a b : string) : String c a +:+ b = String c (a +:+ b).
Proof. reflexivity. Qed.

Lemma append_nil_r (a : string) : a +:+ "" = a.
Proof. induction a as [|c a IH]; [reflexivity|]. rewrite app_cons, IH. reflexivity. Qed.

Lemma app_nil_l (a : string) : "" +:+ a = a.
Proof. reflexivity. Qed.

Lemma skip_ws_space (s : string) : skip_ws (String " " s) = skip_ws s.
Proof. reflexivity. Qed.

Ltac str_norm :=
  repeat first [rewrite append_assoc | rewrite app_cons | rewrite app_nil_l].
Ltac str_norm_in H :=
  repeat first [rewrite append_assoc in H | rewrite app_cons in H | rewrite app_nil_l in H].

Lemma length_append (a b : string) :
  String.length (a +:+ b) = (String.length a + String.length b)%nat.
Proof. induction a as [|c a IH]; [reflexivity|]. rewrite app_cons. cbn. rewrite IH. reflexivity. Qed.

Lemma nzhead_not_D0 (d u : Decimal.uint) : Decimal.nzhead d <> Decimal.D0 u.
Proof. induction d; cbn; try discriminate. exact IHd. Qed.

Lemma to_uint_head (p : positive) :
  match Pos.to_uint p with
  | Decimal.Nil | Decimal.D0 _ => False
  | _ => True
  end.
Proof.
  pose proof (Unsigned.to_of (Pos.to_uint p)) as Hn.
  change (N.of_uint (Pos.to_uint p)) with (Pos.of_uint (Pos.to_uint p)) in Hn.
  rewrite DecimalPos.Unsigned.of_to in Hn. cbn [N.to_uint] in Hn.
  pose proof (DecimalPos.Unsigned.to_uint_nonzero p) as Hz.
  destruct (Pos.to_uint p) as [|d|d|d|d|d|d|d|d|d|d] eqn:E; try exact I.
  - apply (DecimalPos.Unsigned.to_uint_nonnil p E).
  - unfold Decimal.unorm in Hn. cbn [Decimal.nzhead] in Hn.
    destruct (Decimal.nzhead d) eqn:En; try discriminate Hn.
    + injection Hn as Hd. subst d. apply Hz. reflexivity.
    + apply (nzhead_not_D0 d u En).
Qed.

Lemma span_digits_uint (d : Decimal.uint) (rest : string) :
  stops rest = true ->
  span_digits (NilEmpty.string_of_uint d +:+ rest) = (NilEmpty.string_of_uint d, rest).
Proof.
  intros Hs. induction d; cbn [NilEmpty.string_of_uint]; rewrite ?app_cons;
    try (cbn [span_digits]; change (is_digit _) with true; cbv iota; rewrite IHd; reflexivity).
  change ("" +:+ rest) with rest.
  destruct rest as [|c r]; [reflexivity|]. cbn [span_digits].
  cbn [stops] in Hs. destruct (is_digit c); [discriminate Hs|reflexivity].
Qed.

Lemma is_digit_not (c : ascii) :
  is_digit c = true ->
  Ascii.eqb c dquote = false /\ Ascii.eqb c "{" = false /\ Ascii.eqb c "[" = false
  /\ Ascii.eqb c "-" = false /\ Ascii.eqb c "n" = false /\ Ascii.eqb c "t" = false
  /\ Ascii.eqb c "f" = false /\ is_ws c = false /\ Ascii.eqb c "]" = false.
Proof.
  destruct c as [[] [] [] [] [] [] [] []]; intros Hd; try discriminate Hd;
    repeat split; reflexivity.
Qed.

Lemma match_integer_uint (p : positive) (rest : string) :
  stops rest = true ->
  match_integer (NilEmpty.string_of_uint (Pos.to_uint p) +:+ rest)
  = Some (NilEmpty.string_of_uint (Pos.to_uint p), rest).
Proof.
  intros Hs. pose proof (to_uint_head p) as Hh.
  destruct (Pos.to_uint p) as [|d|d|d|d|d|d|d|d|d|d]; try contradiction;
    cbn [NilEmpty.string_of_uint]; rewrite app_cons; unfold match_integer;
    cbn [Ascii.eqb Bool.eqb]; cbv iota;
    change (is_digit _) with true; cbv iota;
    rewrite (span_digits_uint d rest Hs); reflexivity.
Qed.

Lemma match_frac_stop (rest : string) : stops rest = true -> match_frac rest = ("", rest).
Proof.
  destruct rest as [|c r]; [reflexivity|]. cbn [stops match_frac]. intros Hs.
  destruct (Ascii.eqb c "."); [|reflexivity].
  rewrite orb_true_r in Hs. discriminate Hs.
Qed.

Lemma match_exp_stop (rest : string) : stops rest = true -> match_exp rest = ("", rest).
Proof.
  destruct rest as [|c r]; [reflexivity|]. cbn [stops match_exp]. intros Hs.
  destruct (Ascii.eqb c "e"); [rewrite !orb_true_r in Hs; discriminate Hs|].
  destruct (Ascii.eqb c "E"); [rewrite !orb_true_r in Hs; discriminate Hs|].
  reflexivity.
Qed.

Lemma string_of_uint_pos (p : positive) :
  NilZero.string_of_uint (Pos.to_uint p) = NilEmpty.string_of_uint (Pos.to_uint p).
Proof.
  pose proof (to_uint_head p) as Hh. unfold NilZero.string_of_uint.
  destruct (Pos.to_uint p); try contradiction; reflexivity.
Qed.

Lemma match_number_int (n : Z) (rest : string) :
  stops rest = true ->
  match_number (int_repr n +:+ rest) = Some (int_repr n, "", "", rest).
Proof.
  intros Hs. unfold match_number, int_repr.
  assert (match_integer (NilZero.string_of_int (Z.to_int n) +:+ rest)
          = Some (NilZero.string_of_int (Z.to_int n), rest)) as ->.
  { destruct n as [|p|p]; cbn [Z.to_int NilZero.string_of_int].
    - reflexivity.
    - rewrite string_of_uint_pos. apply match_integer_uint, Hs.
    - rewrite string_of_uint_pos, app_cons.
      pose proof (match_integer_uint p rest Hs) as Hm.
      pose proof (to_uint_head p) as Hh. unfold match_integer in *.
      cbn [Ascii.eqb Bool.eqb]. cbv iota.
      destruct (Pos.to_uint p) as [|d|d|d|d|d|d|d|d|d|d]; try contradiction;
        cbn [NilEmpty.string_of_uint] in *; rewrite app_cons in *;
        cbn [Ascii.eqb Bool.eqb] in *; cbv iota in *;
        change (is_digit _) with true in *; cbv iota in *;
        destruct (span_digits (NilEmpty.string_of_uint d +:+ rest)) as [ds r];
        injection Hm as -> ->; reflexivity. }
  rewrite (match_frac_stop rest Hs), (match_exp_stop rest Hs). reflexivity.
Qed.

Lemma parse_int_repr (n : Z) : parse_int (int_repr n) = n.
Proof.
  unfold parse_int, int_repr. rewrite NilZero.isi.
  - apply DecimalZ.of_to.
  - destruct n as [|p|p]; cbn; try discriminate.
    intros E. injection E as E. exact (DecimalPos.Unsigned.to_uint_nonnil p E).
  - destruct n as [|p|p]; cbn; try discriminate.
    intros E. injection E as E. exact (DecimalPos.Unsigned.to_uint_nonnil p E).
Qed.

Lemma scanstring_escape_char (c : ascii) (t : string) :
  scanstring (escape_char c +:+ t) = push c (scanstring t).
Proof.
  destruct c as [[] [] [] [] [] [] [] []]; reflexivity.
Qed.

Lemma scanstring_escape (s rest : string) :
  scanstring (escape s +:+ String dquote rest) = Scanned s rest.
Proof.
  induction s as [|c s IH]; [reflexivity|].
  cbn [escape]. rewrite append_assoc, scanstring_escape_char, IH. reflexivity.
Qed.

Lemma span_digits_stop (rest : string) :
  stops rest = true -> span_digits rest = ("", rest).
Proof.
  destruct rest as [|c r]; [reflexivity|]. cbn [stops span_digits]. intros Hs.
  destruct (is_digit c); [discriminate Hs|reflexivity].
Qed.

Lemma span_digits_app (a d r rest : string) :
  span_digits a = (d, r) -> stops rest = true ->
  span_digits (a +:+ rest) = (d, r +:+ rest).
Proof.
  intros Ha Hs. revert d r Ha. induction a as [|c a IH]; intros d r Ha.
  - injection Ha as <- <-. apply span_digits_stop, Hs.
  - rewrite app_cons. cbn [span_digits] in *.
    destruct (is_digit c).
    + destruct (span_digits a) as [d' r'] eqn:E. injection Ha as <- <-.
      rewrite (IH d' r' eq_refl). reflexivity.
    + injection Ha as <- <-. reflexivity.
Qed.

Lemma span_digits_split (s d r : string) : span_digits s = (d, r) -> s = d +:+ r.
Proof.
  revert d r. induction s as [|c s IH]; intros d r Hs; cbn [span_digits] in Hs.
  - injection Hs as <- <-. reflexivity.
  - destruct (is_digit c).
    + destruct (span_digits s) as [d' r'] eqn:E. injection Hs as <- <-.
      rewrite app_cons, <- (IH d' r' eq_refl). reflexivity.
    + injection Hs as <- <-. reflexivity.
Qed.

Lemma match_integer_app (a i r rest : string) :
  match_integer a = Some (i, r) -> stops rest = true ->
  match_integer (a +:+ rest) = Some (i, r +:+ rest).
Proof.
  intros Ha Hs.
  assert (forall sign b,
             match b with
             | String c s2 =>
                 if Ascii.eqb c "0" then Some (sign +:+ "0", s2)
                 else if is_digit c
                      then match span_digits s2 with
                           | (d, r0) => Some (sign +:+ String c d, r0)
                           end
                      else None
             | EmptyString => None
             end = Some (i, r) ->
             match b +:+ rest with
             | String c s2 =>
                 if Ascii.eqb c "0" then Some (sign +:+ "0", s2)
                 else if is_digit c
                      then match span_digits s2 with
                           | (d, r0) => Some (sign +:+ String c d, r0)
                           end
                      else None
             | EmptyString => None
             end = Some (i, r +:+ rest)) as Hbody.
  { intros sign b Hb. destruct b as [|c b]; [discriminate Hb|]. rewrite app_cons.
    destruct (Ascii.eqb c "0").
    - injection Hb as <- <-. reflexivity.
    - destruct (is_digit c); [|discriminate Hb].
      destruct (span_digits b) as [d r0] eqn:E. injection Hb as <- <-.
      rewrite (span_digits_app b d r0 rest E Hs). reflexivity. }
  unfold match_integer in *. destruct a as [|c a]; [discriminate Ha|].
  rewrite app_cons. destruct (Ascii.eqb c "-").
  - exact (Hbody "-" a Ha).
  - exact (Hbody "" (String c a) Ha).
Qed.

Lemma match_frac_app (a fr r rest : string) :
  match_frac a = (fr, r) -> stops rest = true ->
  match_frac (a +:+ rest) = (fr, r +:+ rest).
Proof.
  intros Ha Hs. destruct a as [|c a].
  - injection Ha as <- <-. apply match_frac_stop, Hs.
  - rewrite app_cons. cbn [match_frac] in *. destruct (Ascii.eqb c ".").
    + destruct (span_digits a) as [d r0] eqn:E.
      rewrite (span_digits_app a d r0 rest E Hs).
      destruct d; injection Ha as <- <-; reflexivity.
    + injection Ha as <- <-. reflexivity.
Qed.

Lemma match_exp_app (a ex rest : string) :
  match_exp a = (ex, "") -> stops rest = true ->
  match_exp (a +:+ rest) = (ex, rest).
Proof.
  intros Ha Hs. destruct a as [|e a].
  - injection Ha as <-. apply match_exp_stop, Hs.
  - rewrite app_cons. cbn [match_exp] in *.
    destruct (Ascii.eqb e "e" || Ascii.eqb e "E"); [|discriminate Ha].
    assert (forall sign s2,
               match span_digits s2 with
               | (EmptyString, _) => ("", String e a)
               | (d, r) => (String e (sign +:+ d), r)
               end = (ex, "") ->
               match span_digits (s2 +:+ rest) with
               | (EmptyString, _) => ("", String e (a +:+ rest))
               | (d, r) => (String e (sign +:+ d), r)
               end = (ex, rest)) as Hbody.
    { intros sign s2 H2. destruct (span_digits s2) as [d r] eqn:E.
      rewrite (span_digits_app s2 d r rest E Hs).
      destruct d; [discriminate H2|]. injection H2 as <- ->. reflexivity. }
    destruct a as [|c t].
    + discriminate Ha.
    + rewrite app_cons. destruct (Ascii.eqb c "-" || Ascii.eqb c "+").
      * exact (Hbody (String c "") t Ha).
      * exact (Hbody "" (String c t) Ha).
Qed.

Lemma match_number_app (t i fr ex rest : string) :
  match_number t = Some (i, fr, ex, "") -> stops rest = true ->
  match_number (t +:+ rest) = Some (i, fr, ex, rest).
Proof.
  unfold match_number. intros Ht Hs.
  destruct (match_integer t) as [[i' r1]|] eqn:E1; [|discriminate Ht].
  destruct (match_frac r1) as [fr' r2] eqn:E2.
  destruct (match_exp r2) as [ex' r3] eqn:E3.
  injection Ht as -> -> -> ->.
  rewrite (match_integer_app t i r1 rest E1 Hs), (match_frac_app r1 fr r2 rest E2 Hs),
    (match_exp_app r2 ex rest E3 Hs).
  reflexivity.
Qed.

Lemma match_integer_split (s i r : string) : match_integer s = Some (i, r) -> s = i +:+ r.
Proof.
  assert (forall sign b,
             match b with
             | String c s2 =>
                 if Ascii.eqb c "0" then Some (sign +:+ "0", s2)
                 else if is_digit c
                      then match span_digits s2 with
                           | (d, r0) => Some (sign +:+ String c d, r0)
                           end
                      else None
             | EmptyString => None
             end = Some (i, r) -> sign +:+ b = i +:+ r) as Hbody.
  { intros sign b Hb. destruct b as [|c b]; [discriminate Hb|].
    destruct (Ascii.eqb c "0") eqn:E0.
    - apply Ascii.eqb_eq in E0. subst c. injection Hb as <- <-.
      rewrite append_assoc. reflexivity.
    - destruct (is_digit c); [|discriminate Hb].
      destruct (span_digits b) as [d r0] eqn:E. injection Hb as <- <-.
      rewrite append_assoc, app_cons, <- (span_digits_split b d r0 E). reflexivity. }
  unfold match_integer. destruct s as [|c s]; [discriminate|].
  destruct (Ascii.eqb c "-") eqn:E.
  - apply Ascii.eqb_eq in E. subst c. intros H. exact (Hbody "-" s H).
  - intros H. exact (Hbody "" (String c s) H).
Qed.

Lemma match_frac_split (s fr r : string) : match_frac s = (fr, r) -> s = fr +:+ r.
Proof.
  destruct s as [|c s]; cbn [match_frac]; [intros H; injection H as <- <-; reflexivity|].
  destruct (Ascii.eqb c ".").
  - destruct (span_digits s) as [d r0] eqn:E.
    destruct d; intros H; injection H as <- <-; [reflexivity|].
    rewrite app_cons, <- (span_digits_split s _ r0 E). reflexivity.
  - intros H. injection H as <- <-. reflexivity.
Qed.

Lemma match_exp_split (s ex r : string) : match_exp s = (ex, r) -> s = ex +:+ r.
Proof.
  destruct s as [|e s]; cbn [match_exp]; [intros H; injection H as <- <-; reflexivity|].
  destruct (Ascii.eqb e "e" || Ascii.eqb e "E");
    [|intros H; injection H as <- <-; reflexivity].
  assert (forall sign s2, sign +:+ s2 = s ->
             match span_digits s2 with
             | (EmptyString, _) => ("", String e s)
             | (d, r0) => (String e (sign +:+ d), r0)
             end = (ex, r) -> String e s = ex +:+ r) as Hbody.
  { intros sign s2 Hs2 H2. destruct (span_digits s2) as [d r0] eqn:E.
    destruct d; injection H2 as <- <-; [reflexivity|].
    rewrite app_cons, append_assoc, <- (span_digits_split s2 _ r0 E), Hs2. reflexivity. }
  destruct s as [|c t].
  - apply (Hbody "" ""). reflexivity.
  - destruct (Ascii.eqb c "-" || Ascii.eqb c "+").
    + apply (Hbody (String c "") t). reflexivity.
    + apply (Hbody "" (String c t)). reflexivity.
Qed.

Lemma match_number_split (s i fr ex r : string) :
  match_number s = Some (i, fr, ex, r) -> s = i +:+ fr +:+ ex +:+ r.
Proof.
  unfold match_number. intros Hs.
  destruct (match_integer s) as [[i' r1]|] eqn:E1; [|discriminate Hs].
  destruct (match_frac r1) as [fr' r2] eqn:E2.
  destruct (match_exp r2) as [ex' r3] eqn:E3.
  injection Hs as -> -> -> ->.
  rewrite (match_integer_split s i r1 E1), (match_frac_split r1 fr r2 E2),
    (match_exp_split r2 ex r E3).
  reflexivity.
Qed.


Ltac len_norm_in H :=
  repeat first [rewrite length_append in H | progress cbn [String.length] in H].

Section JsonFacts.
Context {F : Type} (floatstr : F -> string) (float_of_literal : string -> F).

Lemma scan_once_S (fuel : nat) (s : string) :
  scan_once float_of_literal (S fuel) s =
  match s with
  | EmptyString => StopIteration
  | String nextchar s1 =>
      if Ascii.eqb nextchar dquote then scanned_map PyStr (scanstring s1)
      else if Ascii.eqb nextchar "{" then
        match skip_ws s1 with
        | String c s2 =>
            if Ascii.eqb c "}" then Scanned (PyDict []) s2
            else if Ascii.eqb c dquote
            then scanned_map (fun pairs => PyDict (dict pairs))
                   (object_loop float_of_literal fuel s2)
            else JSONDecodeError "Expecting property name enclosed in double quotes"
        | EmptyString =>
            JSONDecodeError "Expecting property name enclosed in double quotes"
        end
      else if Ascii.eqb nextchar "[" then
        match skip_ws s1 with
        | String c s2 =>
            if Ascii.eqb c "]" then Scanned (PyList []) s2
            else scanned_map PyList (array_loop float_of_literal fuel (String c s2))
        | EmptyString => scanned_map PyList (array_loop float_of_literal fuel EmptyString)
        end
      else
        match strip_prefix "null" s, strip_prefix "true" s, strip_prefix "false" s with
        | Some r, _, _ => Scanned PyNone r
        | None, Some r, _ => Scanned (PyBool true) r
        | None, None, Some r => Scanned (PyBool false) r
        | None, None, None =>
            match match_number s with
            | Some (integer, frac, exp, r) =>
                if String.eqb frac "" && String.eqb exp ""
                then Scanned (PyInt (parse_int integer)) r
                else Scanned (PyFloat (float_of_literal (integer +:+ frac +:+ exp))) r
            | None =>
                match strip_prefix "NaN" s, strip_prefix "Infinity" s,
                      strip_prefix "-Infinity" s with
                | Some r, _, _ => Scanned (PyFloat (float_of_literal "NaN")) r
                | None, Some r, _ => Scanned (PyFloat (float_of_literal "Infinity")) r
                | None, None, Some r => Scanned (PyFloat (float_of_literal "-Infinity")) r
                | None, None, None => StopIteration
                end
            end
        end
  end.
Proof. reflexivity. Qed.

Lemma match_number_head (s i fr ex r : string) :
  match_number s = Some (i, fr, ex, r) ->
  exists c s', s = String c s' /\ (c = "-"%char \/ is_digit c = true).
Proof.
  unfold match_number, match_integer. destruct s as [|c s']; [discriminate|].
  intros Hm. exists c, s'. split; [reflexivity|].
  destruct (Ascii.eqb c "-") eqn:E; [left; apply Ascii.eqb_eq, E|right].
  destruct (Ascii.eqb c "0") eqn:E0; [apply Ascii.eqb_eq in E0; subst c; reflexivity|].
  destruct (is_digit c); [reflexivity|discriminate Hm].
Qed.

Lemma scan_once_number (fuel : nat) (s i fr ex r : string) :
  match_number s = Some (i, fr, ex, r) ->
  scan_once float_of_literal (S fuel) s =
  if String.eqb fr "" && String.eqb ex ""
  then Scanned (PyInt (parse_int i)) r
  else Scanned (PyFloat (float_of_literal (i +:+ fr +:+ ex))) r.
Proof.
  intros Hm. destruct (match_number_head s i fr ex r Hm) as (c & s' & -> & Hc).
  rewrite scan_once_S.
  assert (Ascii.eqb c dquote = false /\ Ascii.eqb c "{" = false /\ Ascii.eqb c "[" = false
          /\ Ascii.eqb c "n" = false /\ Ascii.eqb c "t" = false /\ Ascii.eqb c "f" = false)
    as (H1 & H2 & H3 & H4 & H5 & H6).
  { destruct Hc as [->|Hd]; [repeat split; reflexivity|].
    destruct (is_digit_not c Hd) as (? & ? & ? & ? & ? & ? & ? & ? & ?).
    repeat split; assumption. }
  rewrite H1, H2, H3. cbn [strip_prefix]. rewrite Ascii.eqb_sym, H4.
  rewrite (Ascii.eqb_sym "t" c), H5, (Ascii.eqb_sym "f" c), H6, Hm. reflexivity.
Qed.

Lemma scan_once_int (fuel : nat) (n : Z) (rest : string) :
  stops rest = true ->
  scan_once float_of_literal (S fuel) (int_repr n +:+ rest) = Scanned (PyInt n) rest.
Proof.
  intros Hs. rewrite (scan_once_number fuel _ _ _ _ _ (match_number_int n rest Hs)).
  cbn [String.eqb andb]. rewrite parse_int_repr. reflexivity.
Qed.

Lemma scan_once_float_token (fuel : nat) (t rest : string) :
  float_token t = true -> stops rest = true ->
  scan_once float_of_literal (S fuel) (t +:+ rest)
  = Scanned (PyFloat (float_of_literal t)) rest.
Proof.
  unfold float_token. intros Ht Hs.
  apply orb_true_iff in Ht as [Ht|Ht];
    [apply orb_true_iff in Ht as [Ht|Ht]; [apply orb_true_iff in Ht as [Ht|Ht]|]|];
    try (apply String.eqb_eq in Ht; subst t; reflexivity).
  destruct (match_number t) as [[[[i fr] ex] r]|] eqn:E; [|discriminate Ht].
  destruct r; [|discriminate Ht].
  rewrite (scan_once_number fuel _ _ _ _ _ (match_number_app t i fr ex rest E Hs)).
  apply negb_true_iff in Ht. rewrite Ht.
  pose proof (match_number_split t i fr ex "" E) as Hsplit.
  rewrite append_nil_r in Hsplit. rewrite <- Hsplit. reflexivity.
Qed.

Lemma skip_ws_head (text rest : string) :
  head_ok text = true -> skip_ws (text +:+ rest) = text +:+ rest.
Proof.
  destruct text as [|c t]; [discriminate|]. cbn [head_ok]. intros Hh.
  rewrite app_cons. cbn [skip_ws]. destruct (is_ws c); [discriminate Hh|reflexivity].
Qed.

Lemma skip_ws_repeat (n : nat) (s : string) :
  skip_ws (PyStr.repeat " " n +:+ s) = skip_ws s.
Proof. induction n as [|n IH]; [reflexivity|]. cbn [PyStr.repeat]. rewrite app_cons. exact IH. Qed.

Lemma skip_ws_newline_indent (i level : nat) (s : string) :
  skip_ws (newline_indent i level +:+ s) = skip_ws s.
Proof. unfold newline_indent. rewrite app_cons. cbn [skip_ws]. apply skip_ws_repeat. Qed.

Lemma skip_ws_open_sep (indent : option nat) (level : nat) (s : string) :
  skip_ws (open_sep indent level +:+ s) = skip_ws s.
Proof. destruct indent; [apply skip_ws_newline_indent|reflexivity]. Qed.

Lemma skip_ws_close_sep (indent : option nat) (level : nat) (s : string) :
  skip_ws (close_sep indent level +:+ s) = skip_ws s.
Proof. destruct indent; [apply skip_ws_newline_indent|reflexivity]. Qed.

Lemma item_sep_shape (indent : option nat) (level : nat) :
  exists ws, item_sep indent level = String "," ws
             /\ forall s, skip_ws (ws +:+ s) = skip_ws s.
Proof.
  destruct indent as [i|]; cbn [item_sep].
  - exists (newline_indent i (S level)). split; [reflexivity|].
    intros s. apply skip_ws_newline_indent.
  - exists " ". split; reflexivity.
Qed.

Lemma stops_close_sep (indent : option nat) (level : nat) (c : ascii) (rest : string) :
  stops (String c "") = true ->
  stops (close_sep indent level +:+ String c rest) = true.
Proof. destruct indent; [reflexivity|]. intros H. exact H. Qed.

Lemma array_loop_S (fuel : nat) (s : string) :
  array_loop float_of_literal (S fuel) s =
  match scan_once float_of_literal fuel s with
  | Scanned value s1 =>
      match skip_ws s1 with
      | String c s2 =>
          if Ascii.eqb c "]" then Scanned [value] s2
          else if Ascii.eqb c ","
          then scanned_map (cons value) (array_loop float_of_literal fuel (skip_ws s2))
          else JSONDecodeError "Expecting ',' delimiter"
      | EmptyString => JSONDecodeError "Expecting ',' delimiter"
      end
  | StopIteration => JSONDecodeError "Expecting value"
  | JSONDecodeError msg => JSONDecodeError msg
  | Unmodelled => Unmodelled
  end.
Proof. reflexivity. Qed.

Lemma object_loop_S (fuel : nat) (s : string) :
  object_loop float_of_literal (S fuel) s =
  match scanstring s with
  | Scanned key s1 =>
      match skip_ws s1 with
      | String colon s2 =>
          if Ascii.eqb colon ":" then
            match scan_once float_of_literal fuel (skip_ws s2) with
            | Scanned value s3 =>
                match skip_ws s3 with
                | String c s4 =>
                    if Ascii.eqb c "}" then Scanned [(key, value)] s4
                    else if Ascii.eqb c "," then
                      match skip_ws s4 with
                      | String q s5 =>
                          if Ascii.eqb q dquote
                          then scanned_map (cons (key, value))
                                 (object_loop float_of_literal fuel s5)
                          else JSONDecodeError
                                 "Expecting property name enclosed in double quotes"
                      | EmptyString =>
                          JSONDecodeError
                            "Expecting property name enclosed in double quotes"
                      end
                    else JSONDecodeError "Expecting ',' delimiter"
                | EmptyString => JSONDecodeError "Expecting ',' delimiter"
                end
            | StopIteration => JSONDecodeError "Expecting value"
            | JSONDecodeError msg => JSONDecodeError msg
            | Unmodelled => Unmodelled
            end
          else JSONDecodeError "Expecting ':' delimiter"
      | EmptyString => JSONDecodeError "Expecting ':' delimiter"
      end
  | StopIteration => StopIteration
  | JSONDecodeError msg => JSONDecodeError msg
  | Unmodelled => Unmodelled
  end.
Proof. reflexivity. Qed.

Lemma array_loop_last (fuel : nat) (s s1 r : string) (value : pyobj F) :
  scan_once float_of_literal fuel s = Scanned value s1 ->
  skip_ws s1 = String "]" r ->
  array_loop float_of_literal (S fuel) s = Scanned [value] r.
Proof. intros E1 E2. rewrite array_loop_S, E1, E2. reflexivity. Qed.

Lemma array_loop_more (fuel : nat) (s s2 : string) (value : pyobj F) :
  scan_once float_of_literal fuel s = Scanned value (String "," s2) ->
  array_loop float_of_literal (S fuel) s
  = scanned_map (cons value) (array_loop float_of_literal fuel (skip_ws s2)).
Proof. intros E1. rewrite array_loop_S, E1. reflexivity. Qed.

Lemma object_loop_last (fuel : nat) (s s2 s3 r key : string) (value : pyobj F) :
  scanstring s = Scanned key (String ":" s2) ->
  scan_once float_of_literal fuel (skip_ws s2) = Scanned value s3 ->
  skip_ws s3 = String "}" r ->
  object_loop float_of_literal (S fuel) s = Scanned [(key, value)] r.
Proof. intros E1 E2 E3. rewrite object_loop_S, E1. cbn [skip_ws]. 
  change (is_ws ":") with false. cbv iota. change (Ascii.eqb ":" ":") with true. cbv iota.
  rewrite E2, E3. reflexivity. Qed.

Lemma object_loop_more (fuel : nat) (s s2 s4 s5 key : string) (value : pyobj F) :
  scanstring s = Scanned key (String ":" s2) ->
  scan_once float_of_literal fuel (skip_ws s2) = Scanned value (String "," s4) ->
  skip_ws s4 = String dquote s5 ->
  object_loop float_of_literal (S fuel) s
  = scanned_map (cons (key, value)) (object_loop float_of_literal fuel s5).
Proof. intros E1 E2 E3. rewrite object_loop_S, E1. cbn [skip_ws]. 
  change (is_ws ":") with false. cbv iota. change (Ascii.eqb ":" ":") with true. cbv iota.
  rewrite E2. cbn [skip_ws]. change (is_ws ",") with false. cbv iota.
  change (Ascii.eqb "," "}") with false. change (Ascii.eqb "," ",") with true. cbv iota.
  rewrite E3. change (Ascii.eqb dquote dquote) with true. reflexivity. Qed.

Lemma list_items_loop (l : list (pyobj F)) (indent : option nat) (level : nat) :
  l <> [] -> Forall (reads_back floatstr float_of_literal) l ->
  exists body,
    list_items (iterencode floatstr indent (S level)) (item_sep indent level)
      (close_sep indent level +:+ "]") l = Return body
    /\ head_ok body = true
    /\ forall fuel rest,
         (String.length body <= fuel)%nat ->
         array_loop float_of_literal fuel (body +:+ rest) = Scanned l rest.
Proof.
  induction l as [|x l IH]; [contradiction|]. intros _ Hall.
  apply Forall_cons_1 in Hall as [Hx Hl].
  destruct (Hx indent (S level)) as (cx & Ecx & Hhead & Hscan).
  cbn [list_items]. rewrite Ecx.
  destruct l as [|y l'].
  - cbn [list_items]. eexists. split; [reflexivity|]. split.
    { destruct cx; [discriminate Hhead|exact Hhead]. }
    intros fuel rest Hfuel.
    change (cx +:+ "" +:+ close_sep indent level +:+ "]")
      with (cx +:+ close_sep indent level +:+ "]") in *.
    len_norm_in Hfuel.
    destruct fuel as [|fuel]; [lia|].
    rewrite !append_assoc.
    apply (array_loop_last fuel _ (close_sep indent level +:+ "]" +:+ rest)).
    + apply Hscan; [lia|apply stops_close_sep; reflexivity].
    + rewrite skip_ws_close_sep. reflexivity.
  - destruct (IH ltac:(discriminate) Hl) as (body & Ebody & Hbhead & Hloop).
    rewrite Ebody.
    destruct (item_sep_shape indent level) as (ws & Esep & Hws). rewrite Esep.
    eexists. split; [reflexivity|]. split.
    { destruct cx; [discriminate Hhead|exact Hhead]. }
    intros fuel rest Hfuel.
    len_norm_in Hfuel.
    destruct fuel as [|fuel]; [lia|].
    rewrite !append_assoc, app_cons.
    rewrite (array_loop_more fuel _ (ws +:+ body +:+ rest) x).
    + rewrite Hws, (skip_ws_head body rest Hbhead), Hloop; [reflexivity|lia].
    + apply Hscan; [lia|reflexivity].
Qed.

Lemma dict_items_loop (items : list (string * pyobj F)) (indent : option nat) (level : nat) :
  items <> [] -> Forall (fun kv => reads_back floatstr float_of_literal kv.2) items ->
  exists body,
    dict_items (iterencode floatstr indent (S level)) (item_sep indent level)
      (close_sep indent level +:+ "}") items = Return (String dquote body)
    /\ forall fuel rest,
         (String.length body <= fuel)%nat ->
         object_loop float_of_literal fuel (body +:+ rest) = Scanned items rest.
Proof.
  induction items as [|[key value] items IH]; [contradiction|]. intros _ Hall.
  apply Forall_cons_1 in Hall as [Hx Hl]. cbn [snd] in Hx.
  destruct (Hx indent (S level)) as (cx & Ecx & Hhead & Hscan).
  cbn [dict_items]. rewrite Ecx. unfold encode_basestring_ascii, key_separator.
  destruct items as [|kv items'].
  - cbn [dict_items]. eexists. split; [str_norm; reflexivity|].
    intros fuel rest Hfuel. str_norm_in Hfuel.
    len_norm_in Hfuel.
    destruct fuel as [|fuel]; [lia|]. str_norm.
    eapply object_loop_last.
    + apply scanstring_escape.
    + rewrite skip_ws_space, (skip_ws_head cx _ Hhead).
      apply Hscan; [lia|apply stops_close_sep; reflexivity].
    + rewrite skip_ws_close_sep. reflexivity.
  - destruct (IH ltac:(discriminate) Hl) as (body & Ebody & Hloop).
    rewrite Ebody.
    destruct (item_sep_shape indent level) as (ws & Esep & Hws). rewrite Esep.
    eexists. split; [str_norm; reflexivity|].
    intros fuel rest Hfuel. str_norm_in Hfuel.
    len_norm_in Hfuel.
    destruct fuel as [|fuel]; [lia|]. str_norm.
    erewrite object_loop_more.
    + rewrite Hloop; [reflexivity|lia].
    + apply scanstring_escape.
    + rewrite skip_ws_space, (skip_ws_head cx _ Hhead).
      apply Hscan; [lia|reflexivity].
    + rewrite Hws. reflexivity.
Qed.

Lemma dict_setitem_fresh (d : list (string * pyobj F)) (key : string) (value : pyobj F) :
  key ∉ map fst d -> dict_setitem d key value = d ++ [(key, value)].
Proof.
  induction d as [|[k v] d IH]; intros Hk; [reflexivity|].
  cbn [dict_setitem]. cbn [map fst] in Hk.
  apply not_elem_of_cons in Hk as [Hne Hk].
  destruct (String.eqb k key) eqn:E.
  - apply String.eqb_eq in E. congruence.
  - rewrite (IH Hk). reflexivity.
Qed.

Lemma dict_fold_nodup (pairs acc : list (string * pyobj F)) :
  NoDup (map fst (acc ++ pairs)) ->
  fold_left (fun d kv => dict_setitem d kv.1 kv.2) pairs acc = acc ++ pairs.
Proof.
  revert acc. induction pairs as [|[k v] pairs IH]; intros acc Hnd.
  - rewrite app_nil_r. reflexivity.
  - cbn [fold_left fst snd]. rewrite dict_setitem_fresh.
    + rewrite IH; rewrite <- app_assoc; [reflexivity|exact Hnd].
    + rewrite map_app in Hnd. apply NoDup_app in Hnd as (_ & Hdis & _).
      intros Hin. apply (Hdis k Hin). cbn. left.
Qed.

Lemma dict_nodup (pairs : list (string * pyobj F)) :
  NoDup (map fst pairs) -> dict pairs = pairs.
Proof. intros Hnd. unfold dict. apply (dict_fold_nodup pairs []). exact Hnd. Qed.

(** induction on values, with the items of a list and of a dict *)
Lemma pyobj_nested_ind (P : pyobj F -> Prop) :
  P PyNone -> (forall b, P (PyBool b)) -> (forall n, P (PyInt n)) ->
  (forall f, P (PyFloat f)) -> (forall s, P (PyStr s)) ->
  (forall l, Forall P l -> P (PyList l)) ->
  (forall items, Forall (fun kv => P kv.2) items -> P (PyDict items)) ->
  (forall name, P (PyObject name)) ->
  forall v, P v.
Proof.
  intros HNone HBool HInt HFloat HStr HList HDict HObject.
  fix IH 1. intros [ | b | n | f | s | l | items | name].
  - exact HNone.
  - apply HBool.
  - apply HInt.
  - apply HFloat.
  - apply HStr.
  - apply HList. induction l as [|x l IHl]; constructor; [apply IH|exact IHl].
  - apply HDict. induction items as [|[k x] items IHl]; constructor; [apply IH|exact IHl].
  - apply HObject.
Qed.

Lemma float_token_head (t : string) : float_token t = true -> head_ok t = true.
Proof.
  unfold float_token. intros Ht.
  apply orb_true_iff in Ht as [Ht|Ht];
    [apply orb_true_iff in Ht as [Ht|Ht]; [apply orb_true_iff in Ht as [Ht|Ht]|]|];
    try (apply String.eqb_eq in Ht; subst t; reflexivity).
  destruct (match_number t) as [[[[i fr] ex] r]|] eqn:E; [|discriminate Ht].
  destruct (match_number_head t i fr ex r E) as (c & t' & -> & [->|Hd]); [reflexivity|].
  destruct (is_digit_not c Hd) as (_ & _ & _ & _ & _ & _ & _ & Hws & Hb).
  cbn [head_ok]. rewrite Hws, Hb. reflexivity.
Qed.

Lemma float_token_length (t : string) : float_token t = true -> (1 <= String.length t)%nat.
Proof. intros Ht. apply float_token_head in Ht. destruct t; [discriminate Ht|cbn; lia]. Qed.

Lemma int_repr_head (n : Z) :
  exists c t, int_repr n = String c t /\ (c = "-"%char \/ is_digit c = true).
Proof.
  apply (match_number_head (int_repr n) (int_repr n) "" "" "").
  pose proof (match_number_int n "" eq_refl) as Hm. rewrite append_nil_r in Hm. exact Hm.
Qed.

(** every value of the model is encoded, and read back as it was *)
Lemma representable_reads_back (v : pyobj F) :
  representable floatstr float_of_literal v -> reads_back floatstr float_of_literal v.
Proof.
  induction v as [ | b | n | f | s | l IHl | items IHl | name ] using pyobj_nested_ind;
    intros Hrep indent level.
  - exists "null". split; [reflexivity|]. split; [reflexivity|].
    intros [|fuel] rest Hfuel _; [len_norm_in Hfuel; lia|reflexivity].
  - destruct b.
    + exists "true". split; [reflexivity|]. split; [reflexivity|].
      intros [|fuel] rest Hfuel _; [len_norm_in Hfuel; lia|reflexivity].
    + exists "false". split; [reflexivity|]. split; [reflexivity|].
      intros [|fuel] rest Hfuel _; [len_norm_in Hfuel; lia|reflexivity].
  - exists (int_repr n). split; [reflexivity|].
    destruct (int_repr_head n) as (c & t & E & Hc). split.
    + rewrite E. cbn [head_ok]. destruct Hc as [->|Hd]; [reflexivity|].
      destruct (is_digit_not c Hd) as (_ & _ & _ & _ & _ & _ & _ & Hws & Hb).
      rewrite Hws, Hb. reflexivity.
    + intros [|fuel] rest Hfuel Hs; [rewrite E in Hfuel; cbn in Hfuel; lia|].
      apply scan_once_int, Hs.
  - inversion Hrep as [ | | | f' Htok Hback | | | ]; subst f'.
    exists (floatstr f). split; [reflexivity|]. split; [apply float_token_head, Htok|].
    intros [|fuel] rest Hfuel Hs; [pose proof (float_token_length _ Htok); lia|].
    rewrite (scan_once_float_token fuel _ rest Htok Hs), Hback. reflexivity.
  - exists (encode_basestring_ascii s). split; [reflexivity|]. split; [reflexivity|].
    intros [|fuel] rest Hfuel _; [unfold encode_basestring_ascii in Hfuel; len_norm_in Hfuel; lia|].
    unfold encode_basestring_ascii. str_norm. rewrite scan_once_S.
    change (Ascii.eqb dquote dquote) with true. cbv iota.
    rewrite scanstring_escape. reflexivity.
  - inversion Hrep as [ | | | | | l' Hall | ]; subst l'.
    assert (Forall (reads_back floatstr float_of_literal) l) as Hreads.
    { clear Hrep. induction Hall as [|x l Hx Hall IH]; constructor.
      - apply (Forall_inv IHl), Hx.
      - apply IH. exact (Forall_inv_tail IHl). }
    destruct l as [|x l].
    + exists "[]". split; [reflexivity|]. split; [reflexivity|].
      intros [|fuel] rest Hfuel _; [len_norm_in Hfuel; lia|reflexivity].
    + destruct (list_items_loop (x :: l) indent level ltac:(discriminate) Hreads)
        as (body & Ebody & Hhead & Hloop).
      cbn [iterencode]. rewrite Ebody.
      eexists. split; [reflexivity|]. split; [reflexivity|].
      intros [|fuel] rest Hfuel _; [unfold encode_basestring_ascii in Hfuel; len_norm_in Hfuel; lia|].
      len_norm_in Hfuel. str_norm. rewrite scan_once_S.
      change (Ascii.eqb "[" dquote) with false. change (Ascii.eqb "[" "{") with false.
      change (Ascii.eqb "[" "[") with true. cbv iota.
      rewrite skip_ws_open_sep, (skip_ws_head body rest Hhead).
      destruct body as [|c body']; [discriminate Hhead|].
      rewrite app_cons. cbn [head_ok] in Hhead.
      destruct (Ascii.eqb c "]"); [rewrite andb_false_r in Hhead; discriminate Hhead|].
      rewrite <- app_cons, Hloop; [reflexivity|lia].
  - inversion Hrep as [ | | | | | | items' Hnd Hall ]; subst items'.
    assert (Forall (fun kv => reads_back floatstr float_of_literal kv.2) items) as Hreads.
    { clear Hrep Hnd. induction Hall as [|x l Hx Hall IH]; constructor.
      - apply (Forall_inv IHl), Hx.
      - apply IH. exact (Forall_inv_tail IHl). }
    destruct items as [|kv items].
    + exists "{}". split; [reflexivity|]. split; [reflexivity|].
      intros [|fuel] rest Hfuel _; [len_norm_in Hfuel; lia|reflexivity].
    + destruct (dict_items_loop (kv :: items) indent level ltac:(discriminate) Hreads)
        as (body & Ebody & Hloop).
      cbn [iterencode]. rewrite Ebody.
      eexists. split; [reflexivity|]. split; [reflexivity|].
      intros [|fuel] rest Hfuel _; [unfold encode_basestring_ascii in Hfuel; len_norm_in Hfuel; lia|].
      len_norm_in Hfuel. str_norm. rewrite scan_once_S.
      change (Ascii.eqb "{" dquote) with false. change (Ascii.eqb "{" "{") with true.
      cbv iota.
      rewrite skip_ws_open_sep. cbn [skip_ws].
      change (is_ws dquote) with false. cbv iota.
      change (Ascii.eqb dquote "}") with false. change (Ascii.eqb dquote dquote) with true.
      cbv iota.
      rewrite Hloop; [|lia]. cbn [scanned_map]. rewrite (dict_nodup _ Hnd). reflexivity.
  - inversion Hrep.
Qed.

End JsonFacts.



End JsonText.

(** ** Examples *)

Example dirname_examples :
  os_path.dirname "/a/b/c.json" = "/a/b" /\ os_path.dirname "c.json" = ""
  /\ os_path.dirname "/c.json" = "/" /\ os_path.dirname "a//c.json" = "a"
  /\ os_path.dirname "//c" = "//" /\ os_path.dirname "dir/" = "dir"
  /\ os_path.join "/opt/psl" "psl-runtime.jar" = "/opt/psl/psl-runtime.jar".
Proof. repeat split; reflexivity. Qed.

Example normalise_examples :
  normalise "--help" = "help" /\ normalise " -H " = "h" /\ normalise "h-e-l-p" = "help"
  /\ normalise "- h" = " h" /\ normalise "job.json" = "job.json"
  /\ normalise "HELP.json" = "help.json".
Proof. repeat split; reflexivity. Qed.

Example dumps_examples :
  json.dumps (fun lit : string => lit)
    (json.PyList [json.PyInt 1; json.PyInt (-20); json.PyBool true; json.PyNone;
                  json.PyFloat "2.5"; json.PyList []; json.PyDict []]) None
  = Return "[1, -20, true, null, 2.5, [], {}]"
  /\ json.dumps (fun lit : string => lit) (json.PyList [json.PyInt 1; json.PyList []])
       (Some 4%nat)
     = Return ("[" +:+ String "010" "    1," +:+ String "010" "    []"
               +:+ String "010" "]")
  /\ json.dumps (fun lit : string => lit) (json.PyStr (String "009" (String "233" "a"))) None
     = Return (String json.dquote (String json.backslash "t"
                 +:+ String json.backslash "u00e9a" +:+ String json.dquote ""))
  /\ json.dumps (fun lit : string => lit)
       (json.PyList [json.PyInt 1; json.PyObject "set"]) None
     = Raise (LibraryError "TypeError").
Proof. repeat split; reflexivity. Qed.

Example loads_examples :
  json.loads (fun lit : string => lit) " [1 , -3e5, NaN ,-Infinity , [  ] ] "
  = Some (Return (json.PyList [json.PyInt 1; json.PyFloat "-3e5"; json.PyFloat "NaN";
                               json.PyFloat "-Infinity"; json.PyList []]))
  /\ json.loads (fun lit : string => lit) "[1, 01]"
     = Some (Raise (LibraryError "JSONDecodeError"))
  /\ json.loads (fun lit : string => lit) "[1,]"
     = Some (Raise (LibraryError "JSONDecodeError"))
  /\ json.loads (fun lit : string => lit) "" = Some (Raise (LibraryError "JSONDecodeError"))
  /\ json.loads (fun lit : string => lit) "{} x"
     = Some (Raise (LibraryError "JSONDecodeError"))
  /\ json.loads (fun lit : string => lit) "-0" = Some (Return (json.PyInt 0)).
Proof. repeat split; reflexivity. Qed.

(** ** On the reference platform *)

Section ReferenceRuns.
Import Reference.

Lemma reference_start_law :
  forall jvmpath args classpath p p',
    jpype_startJVM jvmpath args classpath p = (Return tt, p') ->
    jpype_isJVMStarted p' = true.
Proof.
  intros jvmpath args classpath p p'. cbn. unfold start.
  destruct (JVM_running p); [discriminate|].
  destruct (JVM_started p); [discriminate|].
  intros E. injection E as <-. reflexivity.
Qed.

(** C3 on a fresh process: the first call starts the JVM with its
    options, the second one, with other options, changes nothing. *)
Lemma _init_idempotent_fresh :
  _init (Some ["-Xmx1g"]) fresh
  = (Return Runtime, state_of (_init (Some ["-Xmx1g"]) fresh),
     [isJVMStarted_call; getDefaultJVMPath_call;
      startJVM_call libjvm ["-Xmx1g"] [jar]; import_Runtime_call])
  /\ (_init (Some ["-Xmx8g"]) (state_of (_init (Some ["-Xmx1g"]) fresh))
      = (Return Runtime, state_of (_init (Some ["-Xmx1g"]) fresh),
         [isJVMStarted_call; import_Runtime_call])
      /\ (starts ([isJVMStarted_call; getDefaultJVMPath_call;
                   startJVM_call libjvm ["-Xmx1g"] [jar]; import_Runtime_call]
                  ++ calls_of (_init (Some ["-Xmx8g"])
                                 (state_of (_init (Some ["-Xmx1g"]) fresh)))) <= 1)%nat).
Proof.
  split; [reflexivity|].
  apply (_init_idempotent (Some ["-Xmx1g"]) (Some ["-Xmx8g"]) fresh
           (state_of (_init (Some ["-Xmx1g"]) fresh)) Runtime).
  - exact reference_start_law.
  - reflexivity.
Defined.

(** C4 as stated fails: after [_init] and [_shutdown], the next [_init]
    finds no JVM running and calls [startJVM] again (JPype refuses). *)
Lemma restart_requested_after_shutdown :
  result_of (_init None fresh) = Return Runtime
  /\ handle_of running = Running
  /\ result_of (_shutdown running) = Return tt
  /\ handle_of stopped = Stopped
  /\ _init None stopped
     = (Raise (LibraryError "OSError"), stopped,
        [isJVMStarted_call; getDefaultJVMPath_call; startJVM_call libjvm [] [jar]])
  /\ starts (calls_of (_init None stopped)) = 1%nat
  /\ starts (calls_of (run (json.PyDict []) None None stopped)) = 1%nat.
Proof. vm_compute. repeat split. Qed.


(** C6 on two command lines: a help flag, and no argument at all. *)
Lemma usage_on_help_flag :
  (length ["--Help "] ≠ 1%nat \/ (exists a, a ∈ ["--Help "] /\ is_help a))
  /\ (let r := script ("runtime.py" :: ["--Help "]) fresh in
      calls_of r = [print_call sys_stderr (usage "runtime.py")]
      /\ PyStr.contains "runtime.py" (usage "runtime.py") = true
      /\ (exists status, result_of r = Raise (SystemExit status) /\ status ≠ 0)
      /\ starts (calls_of r) = 0%nat
      /\ state_of r = fresh)
  /\ (let r := script ("runtime.py" :: []) fresh in
      calls_of r = [print_call sys_stderr (usage "runtime.py")]
      /\ PyStr.contains "runtime.py" (usage "runtime.py") = true
      /\ (exists status, result_of r = Raise (SystemExit status) /\ status ≠ 0)
      /\ starts (calls_of r) = 0%nat
      /\ state_of r = fresh).
Proof.
  assert (length ["--Help "] ≠ 1%nat \/ (exists a, a ∈ ["--Help "] /\ is_help a)) as Hhelp.
  { right. exists "--Help ". split; [apply list_elem_of_singleton; reflexivity|].
    right. reflexivity. }
  split; [exact Hhelp|]. split.
  - exact (usage_on_refused_command_line "runtime.py" ["--Help "] fresh Hhelp).
  - apply (usage_on_refused_command_line "runtime.py" [] fresh). left. cbn. lia.
Defined.

(** C9 on a file called [h-e-l-p], and on one called [Help]. *)
Lemma help_named_config_examples :
  is_help "h-e-l-p" /\ is_help "Help"
  /\ script ["runtime.py"; "h-e-l-p"] fresh
     = (Raise (SystemExit 1), fresh, [print_call sys_stderr (usage "runtime.py")])
  /\ script ["runtime.py"; "Help"] fresh
     = (Raise (SystemExit 1), fresh, [print_call sys_stderr (usage "runtime.py")]).
Proof.
  assert (is_help "h-e-l-p") as H1 by (right; reflexivity).
  assert (is_help "Help") as H2 by (right; reflexivity).
  split; [exact H1|]. split; [exact H2|]. split.
  - exact (help_named_config_is_refused "runtime.py" "h-e-l-p" fresh H1).
  - exact (help_named_config_is_refused "runtime.py" "Help" fresh H2).
Defined.

(** C7 on the configuration file [/data/job.json] of the fresh process,
    with the stub engine. *)
Lemma cli_runs_the_job_example :
  script ["runtime.py"; "/data/job.json"] fresh
  = (Return tt, running,
     [open_call "/data/job.json"; loads_call "{}"]
     ++ [isJVMStarted_call; getDefaultJVMPath_call; startJVM_call libjvm [] [jar];
         import_Runtime_call; dumps_call (json.PyDict []) None;
         serializedRun_call "{}" "/data"; loads_call status_ok]
     ++ [dumps_call (json.PyDict [("status", json.PyStr "ok")]) (Some 4%nat);
         print_call sys_stdout (status_ok_indented +:+ String "010"%char "")]).
Proof.
  apply (cli_runs_the_job "runtime.py" "/data/job.json" "{}" status_ok_indented
           (json.PyDict []) (json.PyDict [("status", json.PyStr "ok")]) fresh).
  - intros [Hh|Hh]; vm_compute in Hh; discriminate Hh.
  - reflexivity.
  - reflexivity.
  - reflexivity.
  - reflexivity.
Defined.

(** C10 on the bare file name [job.json]. *)
Lemma bare_filename_example :
  PyStr.contains "/" "job.json" = false
  /\ os_path.dirname "job.json" = ""
  /\ (forall text base_path,
        serializedRun_call text base_path
          ∈ calls_of (script ["runtime.py"; "job.json"] fresh) ->
        base_path = "" /\ base_path ≠ ".")
  /\ invocations (calls_of (script ["runtime.py"; "job.json"] fresh))
     = [serializedRun_call "[1, 2]" ""].
Proof.
  split; [reflexivity|].
  pose proof (bare_filename_base_path "runtime.py" "job.json" fresh eq_refl) as [Hd Hb].
  split; [exact Hd|]. split; [exact Hb|]. reflexivity.
Defined.


End ReferenceRuns.

(** * Further properties of the module *)

Section RuntimeCoverage.
Context {St V : Type} `{Platform St V}.

Lemma _load_args_accepts (executable path : string) (args : list string) (s : St) :
  _load_args (executable :: args) s = (Return path, s, @nil (call V))
  <-> args = [path] /\ ~ is_help path.
Proof.
  rewrite _load_args_eq. split.
  - intros E.
    destruct (negb (length args =? 1)%nat || bool_decide (help_flags args ≠ ∅)) eqn:Hc;
      [discriminate E|].
    apply orb_false_iff in Hc as [Hlen Hhelp].
    apply negb_false_iff, Nat.eqb_eq in Hlen.
    destruct args as [|a [|b rest]]; try discriminate Hlen.
    injection E as ->. split; [reflexivity|].
    intros Hh. apply bool_decide_eq_false in Hhelp. apply Hhelp.
    apply help_flags_spec. exists path.
    split; [apply list_elem_of_singleton; reflexivity|exact Hh].
  - intros [-> Hno].
    assert (bool_decide (help_flags [path] ≠ ∅) = false) as ->; [|reflexivity].
    apply bool_decide_eq_false. intros Hne. apply help_flags_spec in Hne as (a & Ha & Hh).
    apply list_elem_of_singleton in Ha. subst a. exact (Hno Hh).
Qed.

(** X1.  The three outcomes of [_load_args].  It returns a path exactly
    when the command line is the executable and one argument that is no
    help flag; the path is that argument as it was given, and nothing is
    printed.  It raises [IndexError] exactly on the empty list.  It raises
    nothing but [IndexError] and [SystemExit(1)]. *)
Theorem _load_args_outcomes (argv : list string) (s : St) :
  (forall path,
      _load_args argv s = (Return path, s, @nil (call V))
      <-> exists executable, argv = [executable; path] /\ ~ is_help path)
  /\ (result_of (_load_args (V:=V) argv s) = Raise IndexError <-> argv = [])
  /\ (forall e, result_of (_load_args (V:=V) argv s) = Raise e ->
                e = IndexError \/ e = SystemExit 1).
Proof.
  destruct argv as [|executable args].
  - split; [|split].
    + intros path. split; [discriminate|]. intros (executable & E & _). discriminate E.
    + split; reflexivity.
    + intros e E. injection E as <-. left. reflexivity.
  - split; [|split].
    + intros path. rewrite _load_args_accepts. split.
      * intros [-> Hno]. exists executable. split; [reflexivity|exact Hno].
      * intros (executable' & E & Hno). injection E as _ ->. split; [reflexivity|exact Hno].
    + rewrite _load_args_eq. split; [|discriminate].
      destruct (negb (length args =? 1)%nat || bool_decide (help_flags args ≠ ∅)) eqn:Hc;
        [discriminate|].
      apply orb_false_iff in Hc as [Hlen _].
      apply negb_false_iff, Nat.eqb_eq in Hlen.
      destruct args; [discriminate Hlen|discriminate].
    + intros e. rewrite _load_args_eq.
      destruct (negb (length args =? 1)%nat || bool_decide (help_flags args ≠ ∅)).
      * intros E. injection E as <-. right. reflexivity.
      * destruct args; intros E; [injection E as <-; left; reflexivity|discriminate E].
Qed.

Lemma filter_none {A} (f : A -> bool) (l : list A) :
  Forall (fun x => f x = false) l -> filter f l = [].
Proof.
  induction 1 as [|x l Hx Hl IH]; [reflexivity|].
  rewrite filter_cons, IH. destruct (decide (f x)) as [Hd|Hd]; [|reflexivity].
  rewrite Hx in Hd. contradiction.
Qed.

Lemma _init_silent (o : option (list string)) (s : St) :
  Forall silent (calls_of (_init o s)).
Proof.
  rewrite _init_eq.
  destruct (jpype_isJVMStarted s); [repeat constructor|].
  destruct (jpype_getDefaultJVMPath s) as [jvmpath|e]; [|repeat constructor].
  destruct (jpype_startJVM jvmpath (default [] o) [JAR_PATH] s) as [[u|e] s1];
    repeat constructor.
Qed.

Lemma run_silent (config : V) (b : option string) (o : option (list string)) (s : St) :
  Forall silent (calls_of (run config b o s)).
Proof.
  rewrite run_eq.
  pose proof (_init_silent (Some (default [] o)) s) as Hi.
  destruct (_init (Some (default [] o)) s) as [[[rt|e] s0] l0];
    unfold calls_of in *; cbn [snd] in *; [|exact Hi].
  destruct (json_dumps config None) as [text|e]; cbn [snd].
  - destruct (Runtime_serializedRun text (default "." b) s0) as [[raw|e] s1]; cbn [snd];
      apply Forall_app; (split; [exact Hi|repeat constructor]).
  - apply Forall_app. split; [exact Hi|repeat constructor].
Qed.

(** X2.  [main] reads and decodes the configuration file before it
    touches the JVM: when [open] or [json.load] raises, that exception is
    the outcome, the process is left as it was, no JVM start is requested,
    the engine is not invoked and nothing is printed. *)
Theorem main_rejects_bad_file_before_start (path : string) (s : St) :
  (forall e, open_read path s = Raise e ->
             main path s = (Raise e, s, [open_call path]))
  /\ (forall text e, open_read path s = Return text -> json_loads text = Raise e ->
                     main path s = (Raise e, s, [open_call path; loads_call text]))
  /\ ((forall config text, open_read path s = Return text -> json_loads text <> Return config) ->
      starts (calls_of (main path s)) = 0%nat
      /\ invocations (calls_of (main path s)) = []
      /\ prints (calls_of (main path s)) = []
      /\ state_of (main path s) = s).
Proof.
  split; [|split].
  - intros e He. rewrite main_eq, He. reflexivity.
  - intros text e Ht He. rewrite main_eq, Ht, He. reflexivity.
  - intros Hbad. rewrite main_eq.
    destruct (open_read path s) as [text|e]; [|repeat split].
    destruct (json_loads text) as [config|e] eqn:E; [|repeat split].
    exfalso. exact (Hbad config text eq_refl E).
Qed.

(** X3.  [main] prints on success only: a [main] that returns has
    printed once, on the output stream, as its last call; a [main] that
    raises has printed nothing. *)
Theorem main_prints_once_on_success (path : string) (s : St) :
  match result_of (main path s) with
  | Return _ =>
      exists before text,
        calls_of (main path s) = before ++ [print_call sys_stdout text]
        /\ prints before = []
  | Raise _ => prints (calls_of (main path s)) = []
  end.
Proof.
  rewrite main_eq.
  destruct (open_read path s) as [content|e]; [|reflexivity].
  destruct (json_loads content) as [config|e]; [|reflexivity].
  pose proof (run_silent config (Some (os_path.dirname path)) None s) as Hrun.
  destruct (run config (Some (os_path.dirname path)) None s) as [[[output|e] s'] l];
    unfold calls_of, result_of in *; cbn [fst snd] in *.
  - assert (prints l = []) as Hl.
    { apply filter_none. eapply Forall_impl; [exact Hrun|]. intros c [Hc _]. exact Hc. }
    destruct (json_dumps output (Some 4%nat)) as [shown|e]; cbn [fst snd].
    + exists ([open_call path; loads_call content] ++ l ++ [dumps_call output (Some 4%nat)]).
      eexists. split.
      * rewrite <- !app_assoc. reflexivity.
      * unfold prints in *. rewrite !filter_app, Hl. reflexivity.
    + unfold prints in *. rewrite !filter_app, Hl. reflexivity.
  - unfold prints. rewrite filter_app. 
    rewrite (filter_none is_print l); [reflexivity|].
    eapply Forall_impl; [exact Hrun|]. intros c [Hc _]. exact Hc.
Qed.

Lemma main_no_shutdown (path : string) (s : St) : shutdowns (calls_of (main path s)) = 0%nat.
Proof.
  rewrite main_eq.
  destruct (open_read path s) as [content|e]; [|reflexivity].
  destruct (json_loads content) as [config|e]; [|reflexivity].
  pose proof (run_silent config (Some (os_path.dirname path)) None s) as Hrun.
  assert (filter is_shutdownJVM (calls_of (run config (Some (os_path.dirname path)) None s)) = [])
    as Hl.
  { apply filter_none. eapply Forall_impl; [exact Hrun|]. intros c [_ Hc]. exact Hc. }
  destruct (run config (Some (os_path.dirname path)) None s) as [[[output|e] s'] l];
    unfold calls_of, shutdowns in *; cbn [snd] in *.
  - destruct (json_dumps output (Some 4%nat)) as [shown|e]; cbn [snd];
      rewrite !filter_app, Hl; reflexivity.
  - rewrite filter_app, Hl. reflexivity.
Qed.

(** X4.  Only [_shutdown] stops the JVM: [_init], [run] and the whole
    command line never call [jpype.shutdownJVM]. *)
Theorem module_never_shuts_down (config : V) (b : option string) (o : option (list string))
    (argv : list string) (s : St) :
  shutdowns (calls_of (_init o s)) = 0%nat
  /\ shutdowns (calls_of (run config b o s)) = 0%nat
  /\ shutdowns (calls_of (script argv s)) = 0%nat.
Proof.
  split; [|split].
  - unfold shutdowns. rewrite filter_none; [reflexivity|].
    eapply Forall_impl; [apply _init_silent|]. intros c [_ Hc]. exact Hc.
  - unfold shutdowns. rewrite filter_none; [reflexivity|].
    eapply Forall_impl; [apply run_silent|]. intros c [_ Hc]. exact Hc.
  - destruct argv as [|executable args]; [reflexivity|].
    unfold script. py_unfold. rewrite _load_args_eq.
    destruct (negb (length args =? 1)%nat || bool_decide (help_flags args ≠ ∅));
      [reflexivity|].
    destruct args as [|path rest]; [reflexivity|].
    pose proof (main_no_shutdown path s) as Hm.
    destruct (main path s) as [[r s'] l]. exact Hm.
Qed.

Lemma _init_start_arguments (o : option (list string)) (s : St)
    (jvmpath : string) (args classpath : list string) :
  startJVM_call jvmpath args classpath ∈ calls_of (_init o s) ->
  args = default [] o /\ classpath = [JAR_PATH]
  /\ jpype_getDefaultJVMPath s = Return jvmpath /\ jpype_isJVMStarted s = false.
Proof.
  rewrite _init_eq. intros Hin.
  destruct (jpype_isJVMStarted s); [log_cases Hin|].
  destruct (jpype_getDefaultJVMPath s) as [p|e]; [|log_cases Hin].
  destruct (jpype_startJVM p (default [] o) [JAR_PATH] s) as [[u|e] s1];
    unfold calls_of in Hin; cbn [snd] in Hin;
    repeat (apply elem_of_cons in Hin as [Hin|Hin];
            [first [discriminate Hin
                   |injection Hin as -> -> ->; repeat split; reflexivity]|]);
    inversion Hin.
Qed.

Lemma run_starts_in_init (config : V) (b : option string) (o : option (list string)) (s : St)
    (jvmpath : string) (args classpath : list string) :
  startJVM_call jvmpath args classpath ∈ calls_of (run config b o s) ->
  startJVM_call jvmpath args classpath ∈ calls_of (_init (Some (default [] o)) s).
Proof.
  destruct (run_calls config b o s) as (tail & Hcalls & Htail & _).
  rewrite Hcalls. intros Hin. apply elem_of_app in Hin as [Hin|Hin]; [exact Hin|].
  assert (startJVM_call jvmpath args classpath ∈ filter is_startJVM tail) as Hbad.
  { apply list_elem_of_filter. split; [reflexivity|exact Hin]. }
  unfold starts in Htail. apply length_zero_iff_nil in Htail.
  rewrite Htail in Hbad. inversion Hbad.
Qed.

(** X5.  Whenever [run] starts a JVM, it is started at the path
    [getDefaultJVMPath] gave, with the options of the call as they are
    (none when omitted), with the one class path entry [JAR_PATH], and no
    JVM was running. *)
Theorem run_start_arguments (config : V) (b : option string) (o : option (list string))
    (s : St) (jvmpath : string) (args classpath : list string) :
  startJVM_call jvmpath args classpath ∈ calls_of (run config b o s) ->
  args = default [] o /\ classpath = [JAR_PATH]
  /\ jpype_getDefaultJVMPath s = Return jvmpath /\ jpype_isJVMStarted s = false.
Proof.
  intros Hin. apply run_starts_in_init in Hin.
  apply _init_start_arguments in Hin. exact Hin.
Qed.

Lemma main_starts_in_run (path : string) (s : St)
    (jvmpath : string) (args classpath : list string) :
  startJVM_call jvmpath args classpath ∈ calls_of (main path s) ->
  exists config,
    startJVM_call jvmpath args classpath
      ∈ calls_of (run config (Some (os_path.dirname path)) None s).
Proof.
  rewrite main_eq. intros Hin.
  destruct (open_read path s) as [content|e]; [|log_cases Hin].
  destruct (json_loads content) as [config|e]; [|log_cases Hin].
  exists config.
  destruct (run config (Some (os_path.dirname path)) None s) as [[[output|e] s'] l];
    unfold calls_of in *; cbn [snd] in *.
  - destruct (json_dumps output (Some 4%nat)) as [shown|e]; cbn [snd] in Hin;
      apply elem_of_app in Hin as [Hin|Hin]; try log_cases Hin;
      apply elem_of_app in Hin as [Hin|Hin]; auto; log_cases Hin.
  - apply elem_of_app in Hin as [Hin|Hin]; [log_cases Hin|auto].
Qed.

(** X6.  The command line cannot pass JVM options: every JVM start of
    [script] carries no option and the class path [JAR_PATH]. *)
Theorem cli_passes_no_jvm_option (argv : list string) (s : St)
    (jvmpath : string) (args classpath : list string) :
  startJVM_call jvmpath args classpath ∈ calls_of (script argv s) ->
  args = [] /\ classpath = [JAR_PATH].
Proof.
  intros Hin. destruct argv as [|executable rest]; [log_cases Hin|].
  unfold script in Hin. py_unfold. rewrite _load_args_eq in Hin.
  destruct (negb (length rest =? 1)%nat || bool_decide (help_flags rest ≠ ∅));
    [log_cases Hin|].
  destruct rest as [|path rest]; [log_cases Hin|].
  assert (startJVM_call jvmpath args classpath ∈ calls_of (main path s)) as Hm.
  { cbn in Hin. destruct (main path s) as [[r s'] l]. exact Hin. }
  apply main_starts_in_run in Hm as [config Hm].
  apply run_start_arguments in Hm as (-> & -> & _). split; reflexivity.
Qed.

(** X7.  With a JVM already running, the options of [run] are not read:
    two runs that differ in their options only are the same computation,
    which begins with the running test and the import and requests no
    start. *)
Theorem run_ignores_options_when_running (config : V) (b : option string)
    (o1 o2 : option (list string)) (s : St) :
  jpype_isJVMStarted s = true ->
  run config b o1 s = run config b o2 s
  /\ starts (calls_of (run config b o1 s)) = 0%nat
  /\ exists tail,
       calls_of (run config b o1 s) = [isJVMStarted_call; import_Runtime_call] ++ tail.
Proof.
  intros Hon.
  assert (forall o, _init (Some (default [] o)) s
                    = (import_Runtime s, s, [isJVMStarted_call; import_Runtime_call])) as Hi.
  { intros o. rewrite _init_eq, Hon. reflexivity. }
  split; [rewrite !run_eq, !Hi; reflexivity|]. split.
  - destruct (run_calls config b o1 s) as (tail & Hcalls & Htail & _).
    rewrite Hcalls, starts_app, Htail, _init_starts, Hon. reflexivity.
  - destruct (run_calls config b o1 s) as (tail & Hcalls & _).
    exists tail. rewrite Hcalls, Hi. reflexivity.
Qed.

(** X8.  The engine is invoked on a running JVM only.  On a platform
    where a JVM that [startJVM] has started is reported by [isJVMStarted],
    an engine invocation in the log of [run] was made in the state [_init]
    left, a JVM runs in that state, and the text passed is [json.dumps] of
    the configuration. *)
Theorem engine_invoked_with_running_jvm (config : V) (b : option string)
    (o : option (list string)) (s : St) (text base_path : string) :
  (forall jvmpath args classpath p p',
      jpype_startJVM jvmpath args classpath p = (Return tt, p') ->
      jpype_isJVMStarted p' = true) ->
  serializedRun_call text base_path ∈ calls_of (run config b o s) ->
  let s0 := state_of (_init (Some (default [] o)) s) in
  jpype_isJVMStarted s0 = true
  /\ json_dumps config None = Return text
  /\ state_of (run config b o s) = (Runtime_serializedRun text base_path s0).2.
Proof.
  intros Hlaw Hin s0. subst s0.
  assert (forall rt s1 l1, _init (Some (default [] o)) s = (Return rt, s1, l1) ->
                           jpype_isJVMStarted s1 = true) as Hon.
  { intros rt s1 l1 E. rewrite _init_eq in E.
    destruct (jpype_isJVMStarted s) eqn:Hs.
    - injection E as _ <- _. exact Hs.
    - destruct (jpype_getDefaultJVMPath s) as [jvmpath|e]; [|discriminate E].
      destruct (jpype_startJVM jvmpath (default [] (Some (default [] o))) [JAR_PATH] s)
        as [[[]|e] s'] eqn:Hstart; [|discriminate E].
      injection E as _ <- _. eauto. }
  pose proof (_init_invocations (Some (default [] o)) s) as Hnone.
  rewrite run_eq in Hin |- *.
  destruct (_init (Some (default [] o)) s) as [[[rt|e] s0] l0] eqn:E;
    unfold calls_of, state_of in *; cbn [fst snd] in *.
  2:{ exfalso.
      assert (serializedRun_call text base_path ∈ invocations l0) as Hbad.
      { apply list_elem_of_filter. split; [reflexivity|exact Hin]. }
      rewrite Hnone in Hbad. inversion Hbad. }
  assert (serializedRun_call text base_path ∉ l0) as Hl0.
  { intros Hbad.
    assert (serializedRun_call text base_path ∈ invocations l0) as Hbad'.
    { apply list_elem_of_filter. split; [reflexivity|exact Hbad]. }
    rewrite Hnone in Hbad'. inversion Hbad'. }
  split; [exact (Hon rt s0 l0 eq_refl)|].
  destruct (json_dumps config None) as [text'|e]; cbn [fst snd] in *.
  2:{ apply elem_of_app in Hin as [Hin|Hin]; [contradiction|log_cases Hin]. }
  destruct (Runtime_serializedRun text' (default "." b) s0) as [[raw|e'] s1] eqn:Erun;
    cbn [fst snd] in *;
    apply elem_of_app in Hin as [Hin|Hin]; try contradiction;
    repeat (apply elem_of_cons in Hin as [Hin|Hin]; [try discriminate Hin|]);
    try (inversion Hin; fail);
    injection Hin as -> ->; rewrite Erun; split; reflexivity.
Qed.

(** X9.  [run] keeps a running JVM running: on a platform whose engine
    call leaves a running JVM running, a [run] from a state with a JVM
    running requests no start and ends, whatever its outcome, in a state
    with a JVM running. *)
Theorem run_keeps_jvm_running (config : V) (b : option string)
    (o : option (list string)) (s : St) :
  (forall text base_path p,
      jpype_isJVMStarted p = true ->
      jpype_isJVMStarted (Runtime_serializedRun text base_path p).2 = true) ->
  jpype_isJVMStarted s = true ->
  jpype_isJVMStarted (state_of (run config b o s)) = true
  /\ starts (calls_of (run config b o s)) = 0%nat.
Proof.
  intros Hengine Hon. split.
  - rewrite run_eq, _init_eq, Hon.
    destruct (import_Runtime s) as [rt|e]; [|exact Hon].
    destruct (json_dumps config None) as [text|e]; [|exact Hon].
    pose proof (Hengine text (default "." b) s Hon) as Hafter.
    destruct (Runtime_serializedRun text (default "." b) s) as [[raw|e] s1]; exact Hafter.
  - destruct (run_calls config b o s) as (tail & Hcalls & Htail & _).
    rewrite Hcalls, starts_app, Htail, _init_starts, Hon. reflexivity.
Qed.

End RuntimeCoverage.

Section StringCoverage.

Lemma lower_dashes (n : nat) (a : string) :
  PyStr.lower (dashes n +:+ a) = dashes n +:+ PyStr.lower a.
Proof.
  induction n as [|n IH]; [reflexivity|].
  unfold dashes in *. cbn [PyStr.repeat]. rewrite !app_cons. cbn [PyStr.lower].
  rewrite IH. reflexivity.
Qed.

Lemma rstrip_dashes (n : nat) (t : string) :
  PyStr.rstrip (dashes n +:+ t) = dashes n +:+ PyStr.rstrip t.
Proof.
  induction n as [|n IH]; [reflexivity|].
  unfold dashes in *. cbn [PyStr.repeat]. rewrite !app_cons. cbn [PyStr.rstrip].
  rewrite IH. destruct (PyStr.repeat "-" n +:+ PyStr.rstrip t); reflexivity.
Qed.

Lemma replace_dashes (n : nat) (t : string) :
  PyStr.replace "-" "" (dashes n +:+ t) = PyStr.replace "-" "" t.
Proof.
  induction n as [|n IH]; [reflexivity|].
  unfold dashes in *. cbn [PyStr.repeat]. rewrite app_cons. cbn [PyStr.replace].
  change (Ascii.eqb "-" "-") with true. cbv iota. exact IH.
Qed.

Lemma isspace_lower (c : ascii) : PyStr.isspace (PyStr.lower_char c) = PyStr.isspace c.
Proof. destruct c as [[] [] [] [] [] [] [] []]; reflexivity. Qed.

Lemma lstrip_length (a : string) : (String.length (PyStr.lstrip a) <= String.length a)%nat.
Proof.
  induction a as [|c a IH]; [reflexivity|]. cbn [PyStr.lstrip].
  destruct (PyStr.isspace c); cbn [String.length]; lia.
Qed.

Lemma lstrip_fixed_lower (a : string) :
  PyStr.lstrip a = a -> PyStr.lstrip (PyStr.lower a) = PyStr.lower a.
Proof.
  destruct a as [|c a]; [reflexivity|]. cbn [PyStr.lstrip PyStr.lower]. intros Hfix.
  rewrite isspace_lower. destruct (PyStr.isspace c); [|reflexivity].
  exfalso. pose proof (lstrip_length a) as Hlen. rewrite Hfix in Hlen.
  cbn [String.length] in Hlen. lia.
Qed.

(** X10.  Leading dashes do not matter to the help test: for an argument
    that does not begin with white space, any number of dashes in front
    of it leaves its normal form, and so whether it is a help flag, as it
    is. *)
Theorem leading_dashes_ignored (n : nat) (a : string) :
  PyStr.lstrip a = a ->
  normalise (dashes n +:+ a) = normalise a
  /\ (is_help (dashes n +:+ a) <-> is_help a).
Proof.
  intros Hfix.
  assert (normalise (dashes n +:+ a) = normalise a) as Hn.
  { destruct n as [|n]; [reflexivity|].
    unfold normalise, PyStr.strip. rewrite lower_dashes, (lstrip_fixed_lower a Hfix).
    assert (PyStr.lstrip (dashes (S n) +:+ PyStr.lower a) = dashes (S n) +:+ PyStr.lower a)
      as -> by reflexivity.
    rewrite rstrip_dashes, replace_dashes. reflexivity. }
  split; [exact Hn|]. unfold is_help. rewrite Hn. reflexivity.
Qed.

Lemma lower_space (c : ascii) :
  PyStr.isspace c = true ->
  PyStr.lower_char c = c /\ Ascii.eqb c "-" = false /\ Ascii.eqb c "h" = false.
Proof. destruct c as [[] [] [] [] [] [] [] []]; intros Hc; try discriminate Hc; repeat split. Qed.

(** X11.  White space is stripped before the dashes are removed, not
    after: an argument made of one dash or more followed by a white space
    character is never a help flag, whatever follows. *)
Theorem space_after_dashes_defeats_help (n : nat) (c : ascii) (a : string) :
  PyStr.isspace c = true ->
  ~ is_help (dashes (S n) +:+ String c a).
Proof.
  intros Hc. destruct (lower_space c Hc) as (Hlow & Hdash & Hh).
  assert (normalise (dashes (S n) +:+ String c a) = ""
          \/ exists t, normalise (dashes (S n) +:+ String c a) = String c t) as Hn.
  { unfold normalise, PyStr.strip. rewrite lower_dashes.
    assert (PyStr.lstrip (dashes (S n) +:+ PyStr.lower (String c a))
            = dashes (S n) +:+ PyStr.lower (String c a)) as -> by reflexivity.
    rewrite rstrip_dashes, replace_dashes. cbn [PyStr.lower PyStr.rstrip]. rewrite Hlow, Hc.
    destruct (PyStr.rstrip (PyStr.lower a)) as [|d r]; [left; reflexivity|right].
    cbn [PyStr.replace]. rewrite Hdash. eauto. }
  unfold is_help. destruct Hn as [-> | [t ->]]; intros [E|E]; try discriminate E;
    injection E as -> _; discriminate Hh.
Qed.

Lemma rfind_dir_file (d f : string) :
  PyStr.contains "/" f = false ->
  PyStr.rfind os_path.sep (d +:+ String os_path.sep f) = Z.of_nat (String.length d).
Proof.
  intros Hf. induction d as [|c d IH].
  - change ("" +:+ String os_path.sep f) with (String os_path.sep f).
    cbn [PyStr.rfind]. rewrite (rfind_absent os_path.sep f Hf). reflexivity.
  - rewrite app_cons. cbn [PyStr.rfind String.length]. rewrite IH.
    destruct (0 <=? Z.of_nat (String.length d)) eqn:E; [lia|].
    apply Z.leb_gt in E. lia.
Qed.

Lemma take_dir_file (d f : string) :
  PyStr.take (S (String.length d)) (d +:+ String os_path.sep f) = d +:+ String os_path.sep "".
Proof.
  induction d as [|c d IH]; [reflexivity|].
  rewrite !app_cons. cbn [String.length]. 
  change (PyStr.take (S (S (String.length d))) (String c (d +:+ String os_path.sep f)))
    with (String c (PyStr.take (S (String.length d)) (d +:+ String os_path.sep f))).
  rewrite IH. reflexivity.
Qed.

Lemma rstrip_char_sep (d : string) :
  PyStr.rstrip_char os_path.sep (d +:+ String os_path.sep "")
  = PyStr.rstrip_char os_path.sep d.
Proof.
  induction d as [|c d IH]; [reflexivity|].
  rewrite app_cons. cbn [PyStr.rstrip_char]. rewrite IH. reflexivity.
Qed.

Lemma rstrip_char_fixed (d : string) :
  PyStr.endswith_char d os_path.sep = false ->
  PyStr.rstrip_char os_path.sep d = d.
Proof.
  induction d as [|c d IH]; [reflexivity|]. intros He.
  cbn [PyStr.rstrip_char]. destruct d as [|c' d'].
  - cbn [PyStr.endswith_char] in He. cbn [PyStr.rstrip_char]. rewrite He. reflexivity.
  - change (PyStr.endswith_char (String c (String c' d')) os_path.sep)
      with (PyStr.endswith_char (String c' d') os_path.sep) in He.
    rewrite (IH He). reflexivity.
Qed.

Lemma rstrip_char_repeat (n : nat) :
  PyStr.rstrip_char os_path.sep (PyStr.repeat os_path.sep n) = "".
Proof. induction n as [|n IH]; [reflexivity|]. cbn [PyStr.repeat PyStr.rstrip_char]. rewrite IH. reflexivity. Qed.

(** the directory part of [d/f] is [d] *)
Lemma dirname_dir_file (d f : string) :
  d <> "" -> PyStr.endswith_char d os_path.sep = false ->
  PyStr.contains "/" f = false ->
  os_path.dirname (d +:+ String os_path.sep f) = d.
Proof.
  intros Hd He Hf. unfold os_path.dirname.
  rewrite (rfind_dir_file d f Hf).
  replace (Z.to_nat (Z.of_nat (String.length d) + 1)) with (S (String.length d)) by lia.
  rewrite take_dir_file.
  assert (PyStr.rstrip_char os_path.sep (d +:+ String os_path.sep "") = d) as Hstrip.
  { rewrite rstrip_char_sep. apply rstrip_char_fixed, He. }
  assert (String.eqb (d +:+ String os_path.sep "") "" = false) as ->.
  { destruct d; [contradiction|reflexivity]. }
  assert (String.eqb (d +:+ String os_path.sep "")
            (PyStr.repeat os_path.sep (String.length (d +:+ String os_path.sep ""))) = false)
    as ->.
  { apply String.eqb_neq. intros E. rewrite E, rstrip_char_repeat in Hstrip.
    apply Hd. symmetry. exact Hstrip. }
  exact Hstrip.
Qed.

End StringCoverage.

Section PathCoverage.
Context {St V : Type} `{Platform St V}.

(** X12.  The engine archive is looked up next to the module: when
    [THIS_DIR] is not empty and does not end with a separator, [JAR_PATH]
    is [THIS_DIR/psl-runtime.jar] and its directory part is [THIS_DIR]. *)
Theorem jar_next_to_module :
  THIS_DIR <> "" -> PyStr.endswith_char THIS_DIR os_path.sep = false ->
  JAR_PATH = THIS_DIR +:+ "/psl-runtime.jar"
  /\ os_path.dirname JAR_PATH = THIS_DIR.
Proof.
  intros Hd He.
  assert (JAR_PATH = THIS_DIR +:+ "/psl-runtime.jar") as Hjar.
  { unfold JAR_PATH, os_path.join. cbn [PyStr.startswith_char].
    change (Ascii.eqb "p" os_path.sep) with false. cbv iota.
    rewrite He, orb_false_r.
    destruct (String.eqb THIS_DIR "") eqn:E; [|reflexivity].
    apply String.eqb_eq in E. contradiction. }
  split; [exact Hjar|]. rewrite Hjar.
  apply (dirname_dir_file THIS_DIR "psl-runtime.jar" Hd He). reflexivity.
Qed.

(** X13.  For a configuration path [d/f], with [f] a file name and [d]
    not ending with a separator, every engine invocation of the command
    line carries the base path [d]. *)
Theorem cli_base_path_is_directory (executable d f : string) (s : St) :
  d <> "" -> PyStr.endswith_char d os_path.sep = false ->
  PyStr.contains "/" f = false ->
  os_path.dirname (d +:+ String os_path.sep f) = d
  /\ (forall text base_path,
        serializedRun_call text base_path
          ∈ calls_of (script [executable; d +:+ String os_path.sep f] s) ->
        base_path = d).
Proof.
  intros Hd He Hf. split; [exact (dirname_dir_file d f Hd He Hf)|].
  intros text base_path Hin.
  rewrite <- (dirname_dir_file d f Hd He Hf).
  unfold script in Hin. py_unfold. rewrite _load_args_eq in Hin.
  destruct (negb (length [d +:+ String os_path.sep f] =? 1)%nat
            || bool_decide (help_flags [d +:+ String os_path.sep f] ≠ ∅)).
  - log_cases Hin.
  - apply (main_invocations _ s text). cbn in Hin.
    destruct (main (d +:+ String os_path.sep f) s) as [[r s'] l]. exact Hin.
Qed.

End PathCoverage.

Section JsonCoverage.
Import json.

Lemma printable_app (a b : string) :
  printable (a +:+ b) = printable a && printable b.
Proof.
  induction a as [|c a IH]; [reflexivity|].
  change (String c a +:+ b) with (String c (a +:+ b)). cbn [printable].
  rewrite IH, andb_assoc. reflexivity.
Qed.

Lemma printable_escape_char (c : ascii) : printable (escape_char c) = true.
Proof. destruct c as [[] [] [] [] [] [] [] []]; reflexivity. Qed.

Lemma printable_escape (s : string) : printable (escape s) = true.
Proof.
  induction s as [|c s IH]; [reflexivity|]. cbn [escape].
  rewrite printable_app, printable_escape_char, IH. reflexivity.
Qed.

Lemma printable_basestring (s : string) : printable (encode_basestring_ascii s) = true.
Proof.
  unfold encode_basestring_ascii. cbn [printable].
  rewrite printable_app, printable_escape. reflexivity.
Qed.

Lemma printable_uint (d : Decimal.uint) : printable (NilEmpty.string_of_uint d) = true.
Proof. induction d; cbn [NilEmpty.string_of_uint printable]; try rewrite IHd; reflexivity. Qed.

Lemma printable_int_repr (n : Z) : printable (int_repr n) = true.
Proof.
  unfold int_repr, NilZero.string_of_int, NilZero.string_of_uint.
  destruct (Z.to_int n) as [d|d]; destruct d; cbn [printable];
    try reflexivity; rewrite ?andb_true_l; 
    try (apply (printable_uint (Decimal.D0 d)));
    try (apply (printable_uint (Decimal.D1 d)));
    try (apply (printable_uint (Decimal.D2 d)));
    try (apply (printable_uint (Decimal.D3 d)));
    try (apply (printable_uint (Decimal.D4 d)));
    try (apply (printable_uint (Decimal.D5 d)));
    try (apply (printable_uint (Decimal.D6 d)));
    try (apply (printable_uint (Decimal.D7 d)));
    try (apply (printable_uint (Decimal.D8 d)));
    try (apply (printable_uint (Decimal.D9 d))).
Qed.

Section JsonValues.
Context {F : Type} (floatstr : F -> string) (float_of_literal : string -> F).

Lemma list_items_encodes (l : list (pyobj F)) (indent : option nat) (level : nat)
    (sep closing : string) :
  Forall (encodes_iff floatstr) l ->
  match list_items (iterencode floatstr indent level) sep closing l with
  | Return _ => forallb serialisable l = true
  | Raise e => forallb serialisable l = false /\ e = LibraryError "TypeError"
  end.
Proof.
  induction 1 as [|x l Hx Hl IH]; [reflexivity|].
  cbn [list_items forallb]. specialize (Hx indent level).
  destruct (iterencode floatstr indent level x) as [chunk|e].
  - rewrite Hx. cbn [andb].
    destruct (list_items (iterencode floatstr indent level) sep closing l); exact IH.
  - destruct Hx as [-> ->]. split; reflexivity.
Qed.

Lemma dict_items_encodes (items : list (string * pyobj F)) (indent : option nat) (level : nat)
    (sep closing : string) :
  Forall (fun kv => encodes_iff floatstr kv.2) items ->
  match dict_items (iterencode floatstr indent level) sep closing items with
  | Return _ => serialisable (PyDict items) = true
  | Raise e => serialisable (PyDict items) = false /\ e = LibraryError "TypeError"
  end.
Proof.
  induction 1 as [|[k x] l Hx Hl IH]; [reflexivity|].
  cbn [dict_items]. cbn [snd] in Hx. specialize (Hx indent level).
  change (serialisable (PyDict ((k, x) :: l)))
    with (serialisable x && serialisable (PyDict l)).
  destruct (iterencode floatstr indent level x) as [chunk|e].
  - rewrite Hx. cbn [andb].
    destruct (dict_items (iterencode floatstr indent level) sep closing l); exact IH.
  - destruct Hx as [-> ->]. split; reflexivity.
Qed.

Lemma iterencode_encodes (v : pyobj F) : encodes_iff floatstr v.
Proof.
  induction v as [ | b | n | f | s | l IHl | items IHl | name ] using pyobj_nested_ind;
    intros indent level; try reflexivity.
  - destruct b; reflexivity.
  - destruct l as [|x l]; [reflexivity|]. cbn [iterencode].
    pose proof (list_items_encodes (x :: l) indent (S level) (item_sep indent level)
                  (close_sep indent level +:+ "]") IHl) as Hl.
    destruct (list_items _ _ _ (x :: l)); exact Hl.
  - destruct items as [|kv items]; [reflexivity|]. cbn [iterencode].
    pose proof (dict_items_encodes (kv :: items) indent (S level) (item_sep indent level)
                  (close_sep indent level +:+ "}") IHl) as Hl.
    destruct (dict_items _ _ _ (kv :: items)); exact Hl.
  - split; reflexivity.
Qed.



Lemma list_items_plain (l : list (pyobj F)) (level : nat) (body : string) :
  Forall (plain_text floatstr) l -> forallb (floats_printable floatstr) l = true ->
  list_items (iterencode floatstr None level) ", " "]" l = Return body ->
  printable body = true.
Proof.
  intros Hall. revert body. induction Hall as [|x l Hx Hl IH]; intros body Hf E.
  - cbn [list_items] in E. injection E as <-. reflexivity.
  - cbn [list_items forallb] in *. apply andb_true_iff in Hf as [Hfx Hfl].
    destruct (iterencode floatstr None level x) as [chunk|e] eqn:Ex; [|discriminate E].
    destruct (list_items (iterencode floatstr None level) ", " "]" l) as [more|e] eqn:El;
      [|discriminate E].
    injection E as <-. rewrite !printable_app, (Hx Hfx level chunk Ex), (IH more Hfl eq_refl).
    destruct l; reflexivity.
Qed.

Lemma dict_items_plain (items : list (string * pyobj F)) (level : nat) (body : string) :
  Forall (fun kv => plain_text floatstr kv.2) items ->
  floats_printable floatstr (PyDict items) = true ->
  dict_items (iterencode floatstr None level) ", " "}" items = Return body ->
  printable body = true.
Proof.
  intros Hall. revert body. induction Hall as [|[k x] l Hx Hl IH]; intros body Hf E.
  - cbn [dict_items] in E. injection E as <-. reflexivity.
  - cbn [dict_items] in E. cbn [snd] in Hx.
    change (floats_printable floatstr (PyDict ((k, x) :: l)))
      with (floats_printable floatstr x && floats_printable floatstr (PyDict l)) in Hf.
    apply andb_true_iff in Hf as [Hfx Hfl].
    destruct (iterencode floatstr None level x) as [chunk|e] eqn:Ex; [|discriminate E].
    destruct (dict_items (iterencode floatstr None level) ", " "}" l) as [more|e] eqn:El;
      [|discriminate E].
    injection E as <-.
    rewrite !printable_app, printable_basestring, (Hx Hfx level chunk Ex),
      (IH more Hfl eq_refl).
    destruct l; reflexivity.
Qed.

Lemma iterencode_plain (v : pyobj F) : plain_text floatstr v.
Proof.
  induction v as [ | b | n | f | s | l IHl | items IHl | name ] using pyobj_nested_ind;
    intros Hf level text E; cbn [iterencode] in E.
  - injection E as <-. reflexivity.
  - destruct b; injection E as <-; reflexivity.
  - injection E as <-. apply printable_int_repr.
  - injection E as <-. exact Hf.
  - injection E as <-. apply printable_basestring.
  - destruct l as [|x l]; [injection E as <-; reflexivity|].
    change (item_sep None level) with ", " in E.
    change (close_sep None level +:+ "]") with "]" in E.
    destruct (list_items (iterencode floatstr None (S level)) ", " "]" (x :: l))
      as [body|e] eqn:El; [|discriminate E].
    injection E as <-. cbn [printable]. 
    change (open_sep None level +:+ body) with body.
    exact (list_items_plain (x :: l) (S level) body IHl Hf El).
  - destruct items as [|kv items]; [injection E as <-; reflexivity|].
    change (item_sep None level) with ", " in E.
    change (close_sep None level +:+ "}") with "}" in E.
    destruct (dict_items (iterencode floatstr None (S level)) ", " "}" (kv :: items))
      as [body|e] eqn:El; [|discriminate E].
    injection E as <-. cbn [printable].
    change (open_sep None level +:+ body) with body.
    exact (dict_items_plain (kv :: items) (S level) body IHl Hf El).
  - discriminate E.
Qed.

(** X16.  The text [json.dumps] writes without indentation, the one
    [run] hands to the engine, is printable ASCII on one line, when the
    texts of the floats of the value are. *)
Theorem dumps_text_is_printable_ascii (v : pyobj F) (text : string) :
  floats_printable floatstr v = true ->
  dumps floatstr v None = Return text ->
  printable text = true.
Proof. intros Hf E. exact (iterencode_plain v Hf 0%nat text E). Qed.

End JsonValues.

End JsonCoverage.

(** ** Further runs on the reference platform *)

Section CoverageRuns.
Import Reference.

Ltac in_log :=
  apply list_elem_of_In; vm_compute; repeat (first [left; reflexivity | right]).

(** X17.  On the reference platform, [run] on a configuration that holds
    an object outside the JSON model, once [_init] has returned, raises
    [TypeError] in the state [_init] left, with [json.dumps] as its last
    call: the engine is not invoked. *)
Theorem run_unserialisable_config (config : pyobj) (b : option string)
    (o : option (list string)) (p : process) :
  serialisable config = false ->
  result_of (_init (Some (default [] o)) p) = Return Runtime ->
  run config b o p
  = (Raise (LibraryError "TypeError"), state_of (_init (Some (default [] o)) p),
     calls_of (_init (Some (default [] o)) p) ++ [dumps_call config None]).
Proof.
  intros Hbad Hinit. rewrite run_eq.
  destruct (_init (Some (default [] o)) p) as [[[rt|e] s0] l0]; [|discriminate Hinit].
  pose proof (iterencode_encodes (fun lit : string => lit) config None 0%nat) as Henc.
  change (json_dumps config None) with (json.iterencode (fun lit : string => lit) None 0 config).
  destruct (json.iterencode (fun lit : string => lit) None 0 config) as [text|e].
  - rewrite Hbad in Henc. discriminate Henc.
  - destruct Henc as [_ ->]. reflexivity.
Qed.

Lemma run_unserialisable_config_example :
  run config_with_set None None fresh
  = (Raise (LibraryError "TypeError"), running,
     [isJVMStarted_call; getDefaultJVMPath_call; startJVM_call libjvm [] [jar];
      import_Runtime_call]
     ++ [dumps_call config_with_set None]).
Proof.
  apply (run_unserialisable_config config_with_set None None fresh); reflexivity.
Defined.

Lemma run_start_arguments_example :
  startJVM_call libjvm ["-Xmx1g"] [jar]
    ∈ calls_of (run example_config None (Some ["-Xmx1g"]) fresh)
  /\ ["-Xmx1g"] = default [] (Some ["-Xmx1g"])
  /\ [jar] = [@JAR_PATH process pyobj platform]
  /\ jpype_getDefaultJVMPath fresh = Return libjvm
  /\ jpype_isJVMStarted fresh = false.
Proof.
  assert (startJVM_call libjvm ["-Xmx1g"] [jar]
            ∈ calls_of (run example_config None (Some ["-Xmx1g"]) fresh)) as Hin by in_log.
  split; [exact Hin|].
  exact (run_start_arguments example_config None (Some ["-Xmx1g"]) fresh libjvm
           ["-Xmx1g"] [jar] Hin).
Defined.

Lemma cli_passes_no_jvm_option_example :
  startJVM_call libjvm [] [jar] ∈ calls_of (script ["runtime.py"; "job.json"] fresh)
  /\ @nil string = [] /\ [jar] = [@JAR_PATH process pyobj platform].
Proof.
  assert (startJVM_call libjvm [] [jar]
            ∈ calls_of (script ["runtime.py"; "job.json"] fresh)) as Hin by in_log.
  split; [exact Hin|].
  exact (cli_passes_no_jvm_option ["runtime.py"; "job.json"] fresh libjvm [] [jar] Hin).
Defined.

Lemma run_ignores_options_example :
  jpype_isJVMStarted running = true
  /\ run example_config None (Some ["-Xmx1g"]) running
     = run example_config None (Some ["-Xmx8g"; "-ea"]) running
  /\ starts (calls_of (run example_config None (Some ["-Xmx1g"]) running)) = 0%nat
  /\ exists tail,
       calls_of (run example_config None (Some ["-Xmx1g"]) running)
       = [isJVMStarted_call; import_Runtime_call] ++ tail.
Proof.
  split; [reflexivity|].
  apply (run_ignores_options_when_running example_config None (Some ["-Xmx1g"])
           (Some ["-Xmx8g"; "-ea"]) running).
  reflexivity.
Defined.

Lemma reference_engine_law :
  forall text base_path p,
    jpype_isJVMStarted p = true ->
    jpype_isJVMStarted (Runtime_serializedRun text base_path p).2 = true.
Proof.
  intros text base_path p Hon. cbn in *. rewrite Hon. cbn. exact Hon.
Qed.

Lemma engine_invoked_with_running_jvm_example :
  serializedRun_call "{}" "/data"
    ∈ calls_of (run (json.PyDict []) (Some "/data") None fresh)
  /\ jpype_isJVMStarted fresh = false
  /\ jpype_isJVMStarted (state_of (_init (Some (default [] None)) fresh)) = true
  /\ json_dumps (json.PyDict [] : pyobj) None = Return "{}"
  /\ state_of (run (json.PyDict []) (Some "/data") None fresh)
     = (Runtime_serializedRun "{}" "/data"
          (state_of (_init (Some (default [] None)) fresh))).2.
Proof.
  assert (serializedRun_call "{}" "/data"
            ∈ calls_of (run (json.PyDict [] : pyobj) (Some "/data") None fresh)) as Hin
    by in_log.
  split; [exact Hin|]. split; [reflexivity|].
  exact (engine_invoked_with_running_jvm (json.PyDict []) (Some "/data") None fresh
           "{}" "/data" reference_start_law Hin).
Defined.

Lemma run_keeps_jvm_running_example :
  jpype_isJVMStarted running = true
  /\ jpype_isJVMStarted (state_of (run config_with_set None None running)) = true
  /\ starts (calls_of (run config_with_set None None running)) = 0%nat
  /\ jpype_isJVMStarted (state_of (run example_config (Some "/data") None running)) = true
  /\ starts (calls_of (run example_config (Some "/data") None running)) = 0%nat.
Proof.
  split; [reflexivity|].
  pose proof (run_keeps_jvm_running config_with_set None None running
                reference_engine_law eq_refl) as [H1 H2].
  pose proof (run_keeps_jvm_running example_config (Some "/data") None running
                reference_engine_law eq_refl) as [H3 H4].
  repeat split; assumption.
Defined.

Lemma leading_dashes_examples :
  PyStr.lstrip "HELP " = "HELP "
  /\ normalise (dashes 3 +:+ "HELP ") = normalise "HELP "
  /\ (is_help (dashes 3 +:+ "HELP ") <-> is_help "HELP ")
  /\ is_help "---HELP ".
Proof.
  pose proof (leading_dashes_ignored 3 "HELP " eq_refl) as [Hn Hh].
  split; [reflexivity|]. split; [exact Hn|]. split; [exact Hh|].
  apply Hh. right. reflexivity.
Defined.

Lemma space_after_dashes_examples :
  PyStr.isspace " " = true /\ ~ is_help "-- help" /\ ~ is_help "- h".
Proof.
  split; [reflexivity|]. split.
  - exact (space_after_dashes_defeats_help 1 " " "help" eq_refl).
  - exact (space_after_dashes_defeats_help 0 " " "h" eq_refl).
Defined.

Lemma jar_next_to_module_example :
  @JAR_PATH process pyobj platform = "/opt/psl/pslpython" +:+ "/psl-runtime.jar"
  /\ os_path.dirname (@JAR_PATH process pyobj platform) = "/opt/psl/pslpython".
Proof.
  apply (@jar_next_to_module process pyobj platform); [discriminate|reflexivity].
Defined.

Lemma cli_base_path_is_directory_example :
  "/data/job.json" = "/data" +:+ String os_path.sep "job.json"
  /\ os_path.dirname "/data/job.json" = "/data"
  /\ (forall text base_path,
        serializedRun_call text base_path
          ∈ calls_of (script ["runtime.py"; "/data/job.json"] fresh) ->
        base_path = "/data")
  /\ invocations (calls_of (script ["runtime.py"; "/data/job.json"] fresh))
     = [serializedRun_call "{}" "/data"].
Proof.
  split; [reflexivity|].
  pose proof (cli_base_path_is_directory "runtime.py" "/data" "job.json" fresh
                ltac:(discriminate) eq_refl eq_refl) as [Hd Hb].
  split; [exact Hd|]. split; [exact Hb|]. reflexivity.
Defined.


Lemma dumps_text_is_printable_example :
  floats_printable (fun lit : string => lit) example_config = true
  /\ exists text,
       json.dumps (fun lit : string => lit) example_config None = Return text
       /\ printable text = true.
Proof.
  split; [reflexivity|]. eexists. split; [reflexivity|].
  apply (dumps_text_is_printable_ascii (fun lit : string => lit) example_config);
    reflexivity.
Defined.

End CoverageRuns.
